(** * GroClient: unit conversion, series resolution and accumulation

    A shallow embedding of [api/client/gro_client.py] (class [GroClient])
    and of the constant it reads from [api/client/cfg.py].

    Conventions of the embedding.
    - A Python dict is a [gmap string pyval]; [d.get(k)] is [d !! k] with an
      absent key and a key bound to [None] both read as "is None".
    - Numbers (Python int and float alike) are exact rationals [Qc]; the
      rounding of IEEE doubles is outside the model, so every arithmetic
      statement below is a statement of exact rational arithmetic.
    - The answer of the unit lookup is a record: its [baseConvFactor], and in
      it [factor] and [offset], are options of numbers.
    - A raised exception is the [Raise] outcome of the [result] type; the
      methods of the parent class [Client] ([search], [lookup],
      [get_data_series], [get_data_points], [rank_series_by_source]) are the
      variables of the section, each free to raise. *)

From Stdlib Require Import ZArith QArith Qcanon Qround.
From stdpp Require Import base numbers list strings gmap.

(** ** Python values and exceptions *)

Inductive pyval : Type :=
  | PNone
  | PNum (q : Qc)
  | PStr (s : string).

#[global] Instance pyval_eq_dec : EqDecision pyval.
Proof. solve_decision. Defined.

#[global] Instance pyval_inhabited : Inhabited pyval := populate PNone.

Abbreviation dict := (gmap string pyval).

Inductive exn : Type :=
  | KeyError (k : string)
  | TypeError
  | AttributeError
  | NotConvertible (unit_id : pyval)   (* Exception('unit_id {} is not convertible') *)
  | MergeError
  | External (msg : string).           (* anything raised by the parent Client *)

Inductive result (A : Type) : Type :=
  | Ok (a : A)
  | Raise (e : exn).
Arguments Ok {A} a.
Arguments Raise {A} e.

#[global] Instance result_ret : MRet result := fun A a => Ok a.
#[global] Instance result_bind : MBind result := fun A B f m =>
  match m with
  | Ok a => f a
  | Raise e => Raise e
  end.
#[global] Instance result_fmap : FMap result := fun A B f m =>
  match m with
  | Ok a => Ok (f a)
  | Raise e => Raise e
  end.

(** [for x in xs: f x] collecting the results; the first exception ends
    the loop. *)
Fixpoint mapR {A B : Type} (f : A -> result B) (xs : list A) : result (list B) :=
  match xs with
  | [] => Ok []
  | x :: xs' =>
      y ← f x;
      ys ← mapR f xs';
      Ok (y :: ys)
  end.

(** [d.get(k)]: an absent key reads as [None]. *)
Definition py_get (d : dict) (k : string) : pyval := default PNone (d !! k).

(** [d[k]]: an absent key raises [KeyError]. *)
Definition py_item (d : dict) (k : string) : result pyval :=
  match d !! k with
  | Some v => Ok v
  | None => Raise (KeyError k)
  end.

(** Truth value of [x] in [if x] / [if not x]. *)
Definition py_truthy (v : pyval) : bool :=
  match v with
  | PNone => false
  | PNum q => negb (bool_decide (q = 0%Qc))
  | PStr s => negb (bool_decide (s = ""%string))
  end.

(** [a == b] on JSON scalars. *)
Definition py_eq (a b : pyval) : bool := bool_decide (a = b).

(** Arithmetic is defined on numbers only. *)
Definition py_arith (op : Qc -> Qc -> Qc) (a b : pyval) : result pyval :=
  match a, b with
  | PNum x, PNum y => Ok (PNum (op x y))
  | _, _ => Raise TypeError
  end.

(** ** cfg.py *)

Module cfg.
Definition MAX_RESULT_COMBINATION_DEPTH : nat := 3.
End cfg.

(** ** Collaborator data *)

(** The value of [lookup('units', id)['baseConvFactor']]: [factor] is
    [None] when the key is absent or null, [offset] is [None] when the key is
    absent (then [.get('offset', 0)] is [0]). *)
Record conv_factor : Type := ConvFactor {
  factor : option Qc;
  offset : option Qc
}.

(** The attributes [lookup('units', id)] returns; [baseConvFactor] is [None]
    when [.get('baseConvFactor')] is [None]. *)
Record unit_attrs : Type := UnitAttrs {
  baseConvFactor : option conv_factor
}.

(** A unit is convertible when its attributes carry a base conversion
    factor whose [factor] is present and not zero. *)
Definition convertible (a : unit_attrs) : Prop :=
  ∃ cf f, baseConvFactor a = Some cf ∧ factor cf = Some f ∧ f ≠ 0%Qc.

Definition cf_factor (cf : conv_factor) : pyval :=
  from_option PNum PNone (factor cf).

Definition cf_offset (cf : conv_factor) : pyval :=
  PNum (default 0%Qc (offset cf)).

(** ** itertools.product *)

(** [itertools.product] of the pools: the rightmost pool advances fastest, and
    the product of no pool at all is the one empty tuple. *)
Fixpoint itertools_product {A : Type} (pools : list (list A)) : list (list A) :=
  match pools with
  | [] => [[]]
  | pool :: rest => x ← pool; (x ::.) <$> itertools_product rest
  end.

(** [dict(pairs)]: later pairs overwrite earlier ones. *)
Definition py_dict (pairs : list (string * pyval)) : dict :=
  foldl (fun d kv => <[kv.1 := kv.2]> d) ∅ pairs.

(** [True]; [bool] is a subclass of [int] and [True == 1]. *)
Definition PTrue : pyval := PNum 1%Qc.

(** ** The pandas sink

    [pandas] is not code of this repository; the part of it that
    [add_points_to_df] uses is modelled from the words of the specification
    ("The tabular/dataframe library ... used only as an accumulation sink",
    and the fold policy of its section 4.5). *)

(** Modelled from the spec: [pandas.DataFrame], missing from the sources.
    A frame is a set of column names and a list of rows, each row a dict
    over these columns with [PNone] for a null cell.  The order of columns is
    not modelled. *)
Record DataFrame : Type := mkDataFrame {
  columns : gset string;
  rows : list dict
}.

(** The row over [cols] whose cell in column [c] is [cell c]. *)
Definition mk_row (cols : gset string) (cell : string -> pyval) : dict :=
  list_to_map ((fun c => (c, cell c)) <$> elements cols).

(** Modelled from the spec: [pandas.DataFrame()], the frame of a new client. *)
Definition DataFrame_empty : DataFrame := mkDataFrame ∅ [].

(** Modelled from the spec: [pandas.DataFrame(data=data_points)] for a list
    of dicts; the columns are the keys met, a key a dict lacks is a null
    cell. *)
Definition DataFrame_of (data : list dict) : DataFrame :=
  let cols : gset string := ⋃ (dom <$> data) in
  mkDataFrame cols ((fun r => mk_row cols (py_get r)) <$> data).

(** Modelled from the spec: [df.empty], true when an axis has length 0. *)
Definition df_empty (df : DataFrame) : bool :=
  bool_decide (columns df = ∅) || bool_decide (rows df = []).

(** Modelled from the spec: the column assignment [df[c] = v] of a scalar,
    which "stamps a source_id column ... onto every observation row". *)
Definition set_column (c : string) (v : pyval) (df : DataFrame) : DataFrame :=
  mkDataFrame ({[c]} ∪ columns df) ((fun r => <[c := v]> r) <$> rows df).

(** Two rows agree on the join columns. *)
Definition row_match (on : gset string) (l r : dict) : Prop :=
  set_Forall (fun c => py_get l c = py_get r c) on.

#[global] Instance row_match_dec on l r : Decision (row_match on l r).
Proof. unfold row_match. apply _. Defined.

(** Modelled from the spec: [left.merge(right, how='outer')] of pandas,
    missing from the sources: "an outer join/merge against the existing table
    on the intersection of both tables' columns - rows with no match on one
    side get null-filled columns from the other side".  Rows that match pair
    up in all combinations, null cells match each other, and without a common
    column pandas raises.  pandas sorts the rows of an outer merge by key:
    the order of rows is NOT modelled (rows of the left frame come first
    here), so statements about frames speak of rows up to order. *)
Definition merge_outer (left right : DataFrame) : result DataFrame :=
  let on := columns left ∩ columns right in
  if bool_decide (on = ∅) then Raise MergeError
  else
    let cols := columns left ∪ columns right in
    let joined_row l r :=
      mk_row cols (fun c => if bool_decide (c ∈ columns left) then py_get l c else py_get r c) in
    let left_only l :=
      mk_row cols (fun c => if bool_decide (c ∈ columns left) then py_get l c else PNone) in
    let right_only r :=
      mk_row cols (fun c => if bool_decide (c ∈ columns right) then py_get r c else PNone) in
    let joined :=
      l ← rows left;
      match filter (row_match on l) (rows right) with
      | [] => [left_only l]
      | ms => joined_row l <$> ms
      end in
    let unmatched :=
      filter (fun r => filter (fun l => row_match on l r) (rows left) = []) (rows right) in
    Ok (mkDataFrame cols (joined ++ (right_only <$> unmatched))).

(** ** Vocabulary of the statements *)

(** The four dimensions in the order [find_data_series] tests them:
    keyword, entity type searched, id key. *)
Definition DIMENSIONS : list (string * string * string) :=
  [("item", "items", "item_id");
   ("metric", "metrics", "metric_id");
   ("region", "regions", "region_id");
   ("partner_region", "regions", "partner_region_id")]%string.

(** The dimensions a call supplies: those whose keyword is truthy. *)
Definition supplied (kwargs : dict) : list (string * string * string) :=
  filter (fun d => Is_true (py_truthy (py_get kwargs d.1.1))) DIMENSIONS.

(** [pool] is what the search of dimension [d] returns, cut to [depth]. *)
Definition searched (search : string -> pyval -> result (list dict)) (depth : nat)
    (kwargs : dict) (d : string * string * string) (pool : list dict) : Prop :=
  ∃ found, search d.1.2 (py_get kwargs d.1.1) = Ok found ∧ pool = take depth found.

(** Number of tuples of a Cartesian product. *)
Definition product_size {A : Type} (pools : list (list A)) : nat :=
  foldr (fun pool n => length pool * n) 1 pools.

(** Rank of the tuple that takes element [i] of each pool, the first pool
    being the most significant digit (dimension-major order). *)
Fixpoint position {A : Type} (idx : list nat) (pools : list (list A)) : nat :=
  match idx, pools with
  | i :: idx', _ :: pools' => i * product_size pools' + position idx' pools'
  | _, _ => 0
  end.

(** Every row of the frame has a cell in each column and nowhere else. *)
Definition wf_frame (df : DataFrame) : Prop :=
  Forall (fun r : dict => dom r = columns df) (rows df).

(** ** gro_client.py *)

Definition DATA_POINTS_UNIQUE_COLS : list string :=
  ["item_id"; "metric_id";
   "region_id"; "partner_region_id";
   "frequency_id"; "source_id";
   "reporting_date"; "start_date"; "end_date"]%string.

(** The process-scoped state of a [GroClient]. *)
Record GroClient_state : Type := mkState {
  data_series_list : list dict;    (* self._data_series_list *)
  data_series_queue : list dict;   (* self._data_series_queue *)
  data_frame : DataFrame           (* self._data_frame *)
}.

(** [GroClient.__init__] *)
Definition GroClient_init : GroClient_state := mkState [] [] DataFrame_empty.

Section GroClient.

(** [self.lookup('units', unit_id)] *)
Variable lookup_units : pyval -> result unit_attrs.
(** [self.search(entity_type, text)] *)
Variable search : string -> pyval -> result (list dict).
(** [self.get_data_series], called with the entity ids as keywords *)
Variable get_data_series : dict -> result (list dict).
(** [self.rank_series_by_source(series)], as the list it yields *)
Variable rank_series_by_source : list dict -> result (list dict).
(** [get_data_points] of the parent class, called with the selections *)
Variable Client_get_data_points : dict -> result (list dict).
(** [pandas.to_datetime] on one cell *)
Variable to_datetime : pyval -> result pyval.
(** the value of [cfg.MAX_RESULT_COMBINATION_DEPTH] when it is read *)
Variable depth : nat.

(** [self.lookup('units', u).get('baseConvFactor')], then the first
    [.get('factor')] on it, which needs a dict. *)
Definition lookup_conv_factor (u : pyval) : result conv_factor :=
  attrs ← lookup_units u;
  match baseConvFactor attrs with
  | Some cf => Ok cf
  | None => Raise AttributeError
  end.

(** [GroClient.convert_unit].  The method updates [point] in place and
    returns it; the result is the state of that one object. No assignment
    precedes a [raise].  [float(x)] is the identity on exact rationals. *)
Definition convert_unit (point : dict) (target_unit_id : pyval) : result dict :=
  if bool_decide (py_get point "unit_id" = PNone)
     || py_eq (py_get point "unit_id") target_unit_id
  then Ok point
  else
    unit_id ← py_item point "unit_id";
    from_convert_factor ← lookup_conv_factor unit_id;
    if negb (py_truthy (cf_factor from_convert_factor))
    then Raise (NotConvertible unit_id)
    else
      to_convert_factor ← lookup_conv_factor target_unit_id;
      if negb (py_truthy (cf_factor to_convert_factor))
      then Raise (NotConvertible target_unit_id)
      else
        point' ←
          (if negb (bool_decide (py_get point "value" = PNone))
           then
             value ← py_item point "value";
             scaled ← py_arith Qcmult value (cf_factor from_convert_factor);
             value_in_base_unit ← py_arith Qcplus scaled (cf_offset from_convert_factor);
             shifted ← py_arith Qcminus value_in_base_unit (cf_offset to_convert_factor);
             converted ← py_arith Qcdiv shifted (cf_factor to_convert_factor);
             Ok (<["value" := converted]> point)
           else Ok point);
        Ok (<["unit_id" := target_unit_id]> point').

(** [GroClient.get_data_points] *)
Definition get_data_points (selections : dict) : result (list dict) :=
  data_points ← Client_get_data_points selections;
  if bool_decide (is_Some (selections !! "unit_id"))
  then
    target_unit_id ← py_item selections "unit_id";
    mapR (fun point => convert_unit point target_unit_id) data_points
  else Ok data_points.

(** One [if kwargs.get(kw): ...] block of [find_data_series]: the search
    result cut to [depth] and its id key are appended. *)
Definition search_dimension (kwargs : dict) (kw entity_type key : string)
    (acc : list (list dict) * list string) : result (list (list dict) * list string) :=
  if py_truthy (py_get kwargs kw)
  then
    text ← py_item kwargs kw;
    found ← search entity_type text;
    Ok (acc.1 ++ [take depth found], acc.2 ++ [key])
  else Ok acc.

(** Lines 308-325: [search_results] and [keys]. *)
Definition search_dimensions (kwargs : dict) : result (list (list dict) * list string) :=
  acc ← search_dimension kwargs "item" "items" "item_id" ([], []);
  acc ← search_dimension kwargs "metric" "metrics" "metric_id" acc;
  acc ← search_dimension kwargs "region" "regions" "region_id" acc;
  search_dimension kwargs "partner_region" "regions" "partner_region_id" acc.

(** The combinations the sweep of [find_data_series] enumerates. *)
Definition combinations (kwargs : dict) : result (list (list dict)) :=
  acc ← search_dimensions kwargs;
  Ok (itertools_product acc.1).

(** [dict(list(zip(keys, [entity['id'] for entity in comb])))] *)
Definition entities_of (keys : list string) (comb : list dict) : result dict :=
  ids ← mapR (fun entity => py_item entity "id") comb;
  Ok (py_dict (zip keys ids)).

(** The time range of the request stamped on one series. *)
Definition stamp_dates (kwargs data_series : dict) : dict :=
  let data_series :=
    if py_truthy (py_get kwargs "start_date")
    then <["start_date" := py_get kwargs "start_date"]> data_series
    else data_series in
  if py_truthy (py_get kwargs "end_date")
  then <["end_date" := py_get kwargs "end_date"]> data_series
  else data_series.

(** The body of the [for comb in itertools.product(...)] loop. *)
Definition sweep_step (kwargs : dict) (keys : list string)
    (all_data_series : list dict) (comb : list dict) : result (list dict) :=
  entities ← entities_of keys comb;
  data_series_list ← get_data_series entities;
  Ok (all_data_series ++ (stamp_dates kwargs <$> data_series_list)).

Fixpoint sweep (kwargs : dict) (keys : list string)
    (all_data_series : list dict) (combs : list (list dict)) : result (list dict) :=
  match combs with
  | [] => Ok all_data_series
  | comb :: combs' =>
      all_data_series ← sweep_step kwargs keys all_data_series comb;
      sweep kwargs keys all_data_series combs'
  end.

(** [GroClient.find_data_series], as the sequence the generator yields
    (or the exception its first [next] raises). *)
Definition find_data_series (kwargs : dict) : result (list dict) :=
  acc ← search_dimensions kwargs;
  all_data_series ← sweep kwargs acc.2 [] (itertools_product acc.1);
  rank_series_by_source all_data_series.

(** The sweep in the words of the specification, for comparison: "if the
    external lookup fails for one combination, that combination's
    contribution is empty; the resolver does not abort the overall sweep". *)
Definition sweep_tolerant (kwargs : dict) (keys : list string)
    (combs : list (list dict)) : list dict :=
  comb ← combs;
  match entities_of keys comb ≫= get_data_series with
  | Ok data_series_list => stamp_dates kwargs <$> data_series_list
  | Raise _ => []
  end.

Definition find_data_series_tolerant (kwargs : dict) : result (list dict) :=
  acc ← search_dimensions kwargs;
  rank_series_by_source (sweep_tolerant kwargs acc.2 (itertools_product acc.1)).

(** [tmp.c = pandas.to_datetime(tmp.c)] when [c] is a column of [tmp] *)
Definition parse_dates (c : string) (tmp : DataFrame) : result DataFrame :=
  if bool_decide (c ∈ columns tmp)
  then
    rows' ← mapR (fun r => v ← to_datetime (py_get r c); Ok (<[c := v]> r)) (rows tmp);
    Ok (mkDataFrame (columns tmp) rows')
  else Ok tmp.

(** Lines 80-92 of [add_points_to_df]: the batch as a frame, [None] when
    the method returns at [tmp.empty]. *)
Definition batch_frame (data_series : dict) (data_points : list dict)
    : result (option DataFrame) :=
  let tmp := DataFrame_of data_points in
  if df_empty tmp then Ok None
  else
    source_id ← py_item data_series "source_id";
    let tmp := set_column "source_id" source_id tmp in
    tmp ← parse_dates "end_date" tmp;
    tmp ← parse_dates "start_date" tmp;
    tmp ← parse_dates "reporting_date" tmp;
    Ok (Some tmp).

(** Lines 94-99: the fold. The frame [set_index] returns is dropped by
    the source, so the table is the batch itself. *)
Definition fold_batch (data_frame tmp : DataFrame) : result DataFrame :=
  if df_empty data_frame then Ok tmp
  else merge_outer data_frame tmp.

(** [GroClient.add_points_to_df]: the new value of [self._data_frame]
    (the only attribute the method assigns, as its last step). *)
Definition add_points_to_df (data_frame : DataFrame) (data_series : dict)
    (data_points : list dict) : result DataFrame :=
  tmp ← batch_frame data_series data_points;
  match tmp with
  | None => Ok data_frame
  | Some tmp => fold_batch data_frame tmp
  end.

(** [GroClient.add_single_data_series] *)
Definition add_single_data_series (st : GroClient_state) (data_series : dict)
    : GroClient_state :=
  mkState (data_series_list st ++ [data_series])
          (data_series_queue st ++ [data_series])
          (data_frame st).

(** The [while self._data_series_queue] loop of [get_df]; [pending] is the
    queue in the order [pop()] takes it, last element first.  An exception
    leaves the attributes as they are at that moment.  The dict stamped with
    [show_revisions] is the object the saved list holds as well; the saved
    list is carried along unread, and its entries are left unstamped here. *)
Fixpoint get_df_loop (show_revisions : bool) (pending : list dict)
    (st : GroClient_state) : result DataFrame * GroClient_state :=
  match pending with
  | [] => (Ok (data_frame st), st)
  | data_series :: pending' =>
      let st := mkState (data_series_list st) (reverse pending') (data_frame st) in
      let data_series :=
        if show_revisions then <["show_revisions" := PTrue]> data_series
        else data_series in
      match get_data_points data_series with
      | Raise e => (Raise e, st)
      | Ok data_points =>
          match add_points_to_df (data_frame st) data_series data_points with
          | Raise e => (Raise e, st)
          | Ok df =>
              get_df_loop show_revisions pending'
                (mkState (data_series_list st) (data_series_queue st) df)
          end
      end
  end.

(** [GroClient.get_df] *)
Definition get_df (show_revisions : bool) (st : GroClient_state)
    : result DataFrame * GroClient_state :=
  get_df_loop show_revisions (reverse (data_series_queue st)) st.

End GroClient.

(** What the loop body obtains for one combination: the series the lookup
    returns for its entity ids. *)
Definition series_of_comb (get_data_series : dict -> result (list dict))
    (keys : list string) (comb : list dict) : result (list dict) :=
  entities ← entities_of keys comb;
  get_data_series entities.

(** The four blocks of [find_data_series] as one loop over dimensions. *)
Fixpoint search_each (search : string -> pyval -> result (list dict)) (depth : nat)
    (kwargs : dict) (dims : list (string * string * string))
    (acc : list (list dict) * list string) : result (list (list dict) * list string) :=
  match dims with
  | [] => Ok acc
  | d :: dims' =>
      acc ← search_dimension search depth kwargs d.1.1 d.1.2 d.2 acc;
      search_each search depth kwargs dims' acc
  end.

(** The time range of the request is on the series (where the request has
    one). *)
Definition dates_stamped (kwargs data_series : dict) : Prop :=
  (py_truthy (py_get kwargs "start_date") = true ->
     data_series !! "start_date" = Some (py_get kwargs "start_date"))
  ∧ (py_truthy (py_get kwargs "end_date") = true ->
     data_series !! "end_date" = Some (py_get kwargs "end_date")).

(** The lists of the combinations, stamped and concatenated in order. *)
Definition stamped_concat (kwargs : dict) (lists : list (list dict)) : list dict :=
  concat (map (map (stamp_dates kwargs)) lists).

(** The identifying key of a row: its cells in [DATA_POINTS_UNIQUE_COLS],
    a column the row does not have reading as absent. *)
Definition identifying_key (r : dict) : list (option pyval) :=
  (fun c => r !! c) <$> DATA_POINTS_UNIQUE_COLS.

(** Number of rows of the table that carry the identifying key [k]. *)
Definition count_key (k : list (option pyval)) (df : DataFrame) : nat :=
  length (filter (fun r => identifying_key r = k) (rows df)).


(** The point rewritten for the target unit, in closed form: a numeric
    value goes through the base unit with the factor and offset of the source
    ([ff], [fo]) and of the target ([tf], [to]); any other value stays. *)
Definition converted (point : dict) (target : pyval) (ff fo tf to : Qc) : dict :=
  <["unit_id" := target]>
    match point !! "value" with
    | Some (PNum v) => <["value" := PNum (((v * ff + fo) - to) / tf)%Qc]> point
    | _ => point
    end.

(** ** gro_client.py, the rest of the class *)

(** [int(x)] on a number: truncation towards zero. *)
Definition py_int (q : Qc) : Z :=
  if bool_decide (0 ≤ q)%Qc then Qfloor q else Qceiling q.

(** [l[i]] for an integer index: a negative index counts from the end, an
    index out of range has no element ([IndexError]). *)
Definition py_index {A : Type} (l : list A) (i : Z) : option A :=
  if bool_decide (0 ≤ i)%Z then l !! Z.to_nat i
  else if bool_decide (0 ≤ Z.of_nat (length l) + i)%Z
       then l !! Z.to_nat (Z.of_nat (length l) + i)
       else None.

(** What [pick_random_data_series] can raise. *)
Inductive pick_exn : Type :=
  | NoDataSeries (selected_entities : dict)  (* Exception("No data series available for {}") *)
  | IndexError
  | Upstream (e : exn).

Inductive picked : Type :=
  | Picked (selected_data_series : dict)
  | PickRaise (e : pick_exn).

Section Discovery.

Variable search : string -> pyval -> result (list dict).
Variable get_data_series : dict -> result (list dict).
Variable rank_series_by_source : list dict -> result (list dict).
Variable lookup_units : pyval -> result unit_attrs.
Variable Client_get_data_points : dict -> result (list dict).
Variable to_datetime : pyval -> result pyval.
Variable depth : nat.

(** [GroClient.add_data_series]: the loop body runs for the first series
    the generator yields and returns; a generator that yields nothing leaves
    the client as it is, and so does one whose first [next] raises. *)
Definition add_data_series (st : GroClient_state) (kwargs : dict)
    : result unit * GroClient_state :=
  match find_data_series search get_data_series rank_series_by_source depth kwargs with
  | Raise e => (Raise e, st)
  | Ok [] => (Ok tt, st)
  | Ok (the_data_series :: _) => (Ok tt, add_single_data_series st the_data_series)
  end.

(** [GroClient.pick_random_data_series]; [random] is the value the call of
    [random()] returns. *)
Definition pick_random_data_series (random : Qc) (selected_entities : dict) : picked :=
  match get_data_series selected_entities with
  | Raise e => PickRaise (Upstream e)
  | Ok data_series_list =>
      if bool_decide (data_series_list = [])
      then PickRaise (NoDataSeries selected_entities)
      else
        match py_index data_series_list
                (py_int (Qc_of_Z (Z.of_nat (length data_series_list)) * random)%Qc) with
        | Some selected_data_series => Picked selected_data_series
        | None => PickRaise IndexError
        end
  end.

(** The states a client goes through: a new client, and what
    [add_single_data_series], [add_data_series] and [get_df] leave behind,
    whether they return or raise. *)
Inductive reachable : GroClient_state -> Prop :=
  | reachable_init : reachable GroClient_init
  | reachable_add_single st data_series :
      reachable st -> reachable (add_single_data_series st data_series)
  | reachable_add st kwargs :
      reachable st -> reachable (add_data_series st kwargs).2
  | reachable_get_df st show_revisions :
      reachable st ->
      reachable (get_df lookup_units Client_get_data_points to_datetime
                   show_revisions st).2.

End Discovery.

(** ** Sample data

    The unit table of the example of the specification (unit 1 with factor
    1000, unit 2 with factor 1, both with offset 0), one unit with an offset,
    one unit without a factor, and one observation. *)

Module Examples.

Local Open Scope Qc_scope.

Definition units_table (u : pyval) : result unit_attrs :=
  if bool_decide (u = PNum 1) then
    Ok (UnitAttrs (Some (ConvFactor (Some (Qc_of_Z 1000)) (Some 0))))
  else if bool_decide (u = PNum 2) then
    Ok (UnitAttrs (Some (ConvFactor (Some 1) (Some 0))))
  else if bool_decide (u = PNum (Qc_of_Z 3)) then
    Ok (UnitAttrs (Some (ConvFactor None None)))
  else if bool_decide (u = PNum (Qc_of_Z 4)) then
    Ok (UnitAttrs (Some (ConvFactor (Some (Qc_of_Z 5 / Qc_of_Z 9)) (Some (Qc_of_Z 32)))))
  else Raise (External "unknown unit").

(** A lookup that is never available. *)
Definition no_lookup (u : pyval) : result unit_attrs :=
  Raise (External "lookup is down").

Definition point_100 : dict :=
  {[ "value" := PNum (Qc_of_Z 100); "unit_id" := PNum 1;
     "start_date" := PStr "2017-01-01T00:00:00.000Z" ]}.

Definition point_null : dict :=
  {[ "value" := PNone; "unit_id" := PNum 1;
     "start_date" := PStr "2017-01-01T00:00:00.000Z" ]}.

Definition point_unit3 : dict :=
  {[ "value" := PNum (Qc_of_Z 100); "unit_id" := PNum (Qc_of_Z 3) ]}.

Definition entity (id : Z) (name : string) : dict :=
  {[ "id" := PNum (Qc_of_Z id); "name" := PStr name ]}.

(** A search that knows two items, four metrics and one region. *)
Definition search_stub (entity_type : string) (text : pyval) : result (list dict) :=
  if bool_decide (entity_type = "items"%string) then
    Ok [entity 274 "Corn"; entity 270 "Soybeans"]
  else if bool_decide (entity_type = "metrics"%string) then
    Ok [entity 10 "m10"; entity 11 "m11"; entity 12 "m12"; entity 13 "m13"]
  else if bool_decide (entity_type = "regions"%string) then
    Ok [entity 1215 "United States"]
  else Raise (External "unknown entity type").

Definition series (item source : Z) : dict :=
  {[ "item_id" := PNum (Qc_of_Z item); "source_id" := PNum (Qc_of_Z source) ]}.

(** A series lookup that fails for item 274 and answers for the others. *)
Definition flaky_get_data_series (entities : dict) : result (list dict) :=
  if bool_decide (entities !! "item_id" = Some (PNum (Qc_of_Z 274)))
  then Raise (External "timeout")
  else Ok [series 270 2].

(** A series lookup that always answers. *)
Definition steady_get_data_series (entities : dict) : result (list dict) :=
  Ok [series 270 2].

(** A ranking that keeps the order it is given. *)
Definition rank_stub (all_data_series : list dict) : result (list dict) :=
  Ok all_data_series.

Definition kwargs_item : dict := {[ "item" := PStr "corn" ]}.

Definition kwargs_item_metric : dict :=
  {[ "item" := PStr "corn"; "metric" := PStr "export" ]}.

(** Dates are kept as they come. *)
Definition to_datetime_stub (v : pyval) : result pyval := Ok v.

Definition obs (start_date : string) (value : Z) : dict :=
  {[ "start_date" := PStr start_date; "value" := PNum (Qc_of_Z value) ]}.

(** A fetch that fails for the series of item 274. *)
Definition flaky_get_data_points (selections : dict) : result (list dict) :=
  if bool_decide (selections !! "item_id" = Some (PNum (Qc_of_Z 274)))
  then Raise (External "timeout")
  else Ok [obs "2017-01-01" 5; obs "2018-01-01" 7].

(** A table that already holds one observation of another series, with a
    column the batches above do not have. *)
Definition table_before : DataFrame :=
  mkDataFrame {[ "start_date"; "source_id"; "region_id" ]}%string
    [ {[ "start_date" := PStr "2017-01-01"; "source_id" := PNum (Qc_of_Z 9);
         "region_id" := PNum (Qc_of_Z 1215) ]} ].

Definition three_series : GroClient_state :=
  add_single_data_series
    (add_single_data_series
       (add_single_data_series GroClient_init (series 270 3))
       (series 274 2))
    (series 270 2).

(** Selections that ask for unit 2. *)
Definition selections_unit2 : dict :=
  {[ "item_id" := PNum (Qc_of_Z 270); "unit_id" := PNum 2 ]}.

(** A parent client that returns a point in unit 1, one with a null value
    and one without a unit. *)
Definition points_stub (selections : dict) : result (list dict) :=
  Ok [point_100; point_null; delete "unit_id" point_100].

(** A parent client whose second point is in the unit without a factor. *)
Definition mixed_points_stub (selections : dict) : result (list dict) :=
  Ok [point_100; point_unit3; point_null].

(** A search whose metrics index is down. *)
Definition search_metrics_down (entity_type : string) (text : pyval)
    : result (list dict) :=
  if bool_decide (entity_type = "metrics"%string) then Raise (External "metrics down")
  else search_stub entity_type text.

(** A search that knows no metric. *)
Definition search_no_metric (entity_type : string) (text : pyval)
    : result (list dict) :=
  if bool_decide (entity_type = "metrics"%string) then Ok []
  else search_stub entity_type text.

Definition kwargs_dated : dict :=
  {[ "item" := PStr "corn"; "start_date" := PStr "2000-01-01" ]}.

Definition kwargs_blank_metric : dict :=
  {[ "item" := PStr "corn"; "metric" := PStr "" ]}.

(** A fetch that always answers. *)
Definition steady_get_data_points (selections : dict) : result (list dict) :=
  Ok [obs "2017-01-01" 5; obs "2018-01-01" 7].

End Examples.

(** * Properties *)

(** ** Reading Python values *)

Lemma py_get_lookup (d : dict) k v : d !! k = Some v -> py_get d k = v.
Proof. unfold py_get. by intros ->. Qed.


Lemma py_item_get (d : dict) k : py_get d k ≠ PNone -> py_item d k = Ok (py_get d k).
Proof.
  unfold py_item, py_get. destruct (d !! k); simpl; [done|]. by intros [].
Qed.

Lemma py_truthy_factor cf f :
  factor cf = Some f -> f ≠ 0%Qc -> py_truthy (cf_factor cf) = true.
Proof.
  intros Hf Hne. unfold cf_factor. rewrite Hf. simpl.
  by rewrite bool_decide_eq_false_2.
Qed.

Lemma py_falsy_factor cf :
  factor cf = None ∨ factor cf = Some 0%Qc -> py_truthy (cf_factor cf) = false.
Proof. unfold cf_factor. by intros [-> | ->]. Qed.

Section ConvertUnit.

Local Open Scope Qc_scope.

Variable lookup_units : pyval -> result unit_attrs.

Local Abbreviation convert := (convert_unit lookup_units).
Local Abbreviation conv_of := (lookup_conv_factor lookup_units).

(** The guard of [convert_unit] is passed by a point that carries a unit
    other than the target. *)
Lemma convert_unit_proceeds (point : dict) target :
  py_get point "unit_id" ≠ PNone ->
  py_get point "unit_id" ≠ target ->
  bool_decide (py_get point "unit_id" = PNone)
    || py_eq (py_get point "unit_id") target = false.
Proof.
  intros Hu Hne. unfold py_eq.
  by rewrite !bool_decide_eq_false_2.
Qed.

(** Past both factor checks, what is left of [convert_unit] is the
    arithmetic on the value. *)
Lemma convert_unit_convertible (point : dict) target cfrom cto ff tf :
  py_get point "unit_id" ≠ PNone ->
  py_get point "unit_id" ≠ target ->
  conv_of (py_get point "unit_id") = Ok cfrom ->
  conv_of target = Ok cto ->
  factor cfrom = Some ff -> ff ≠ 0 ->
  factor cto = Some tf -> tf ≠ 0 ->
  convert point target =
    point' ←
      (if negb (bool_decide (py_get point "value" = PNone))
       then
         value ← py_item point "value";
         scaled ← py_arith Qcmult value (PNum ff);
         value_in_base_unit ← py_arith Qcplus scaled (cf_offset cfrom);
         shifted ← py_arith Qcminus value_in_base_unit (cf_offset cto);
         converted ← py_arith Qcdiv shifted (PNum tf);
         Ok (<["value" := converted]> point)
       else Ok point);
    Ok (<["unit_id" := target]> point').
Proof.
  intros Hu Hne Hfrom Hto Hff Hff0 Htf Htf0. unfold convert_unit.
  rewrite convert_unit_proceeds by done.
  rewrite (py_item_get point "unit_id") by done. simpl.
  rewrite Hfrom. simpl.
  rewrite (py_truthy_factor _ _ Hff Hff0). simpl.
  rewrite Hto. simpl.
  rewrite (py_truthy_factor _ _ Htf Htf0). simpl.
  unfold cf_factor. by rewrite Hff, Htf.
Qed.

(** C7: a point whose unit is null, or already the target, is returned
    as it is, whatever the unit lookup would answer: the lookup is not
    consulted and nothing is raised. *)
Theorem convert_unit_identity (point : dict) target :
  py_get point "unit_id" = PNone ∨ py_get point "unit_id" = target ->
  convert point target = Ok point.
Proof.
  intros H. unfold convert_unit, py_eq.
  destruct H as [-> | ->].
  - done.
  - by rewrite (bool_decide_eq_true_2 (target = target)), orb_true_r.
Qed.

(** The arithmetic branch, evaluated. *)
Lemma convert_unit_numeric (point : dict) target v cfrom cto ff tf :
  point !! "value" = Some (PNum v) ->
  py_get point "unit_id" ≠ PNone ->
  py_get point "unit_id" ≠ target ->
  conv_of (py_get point "unit_id") = Ok cfrom ->
  conv_of target = Ok cto ->
  factor cfrom = Some ff -> ff ≠ 0 ->
  factor cto = Some tf -> tf ≠ 0 ->
  convert point target =
    Ok (<["unit_id" := target]>
          (<["value" := PNum (((v * ff + default 0 (offset cfrom))
                               - default 0 (offset cto)) / tf)]> point)).
Proof.
  intros Hv Hu Hne Hfrom Hto Hff Hff0 Htf Htf0.
  rewrite (convert_unit_convertible _ _ _ _ _ _ Hu Hne Hfrom Hto Hff Hff0 Htf Htf0).
  rewrite (py_get_lookup _ _ _ Hv). unfold py_item. rewrite Hv. done.
Qed.

(** The branch of a null value, evaluated. *)
Lemma convert_unit_null (point : dict) target cfrom cto ff tf :
  py_get point "value" = PNone ->
  py_get point "unit_id" ≠ PNone ->
  py_get point "unit_id" ≠ target ->
  conv_of (py_get point "unit_id") = Ok cfrom ->
  conv_of target = Ok cto ->
  factor cfrom = Some ff -> ff ≠ 0 ->
  factor cto = Some tf -> tf ≠ 0 ->
  convert point target = Ok (<["unit_id" := target]> point).
Proof.
  intros Hv Hu Hne Hfrom Hto Hff Hff0 Htf Htf0.
  rewrite (convert_unit_convertible _ _ _ _ _ _ Hu Hne Hfrom Hto Hff Hff0 Htf Htf0).
  by rewrite Hv.
Qed.

(** C2: a numeric value in a unit other than the target, both units with
    a non-zero factor, comes back as
    ((value * from.factor + from.offset) - to.offset) / to.factor
    under the target unit. *)
Theorem convert_unit_two_hop (point : dict) target v cfrom cto ff tf :
  point !! "value" = Some (PNum v) ->
  py_get point "unit_id" ≠ PNone ->
  py_get point "unit_id" ≠ target ->
  conv_of (py_get point "unit_id") = Ok cfrom ->
  conv_of target = Ok cto ->
  factor cfrom = Some ff -> ff ≠ 0 ->
  factor cto = Some tf -> tf ≠ 0 ->
  ∃ p', convert point target = Ok p'
        ∧ p' !! "value" = Some (PNum (((v * ff + default 0 (offset cfrom))
                                       - default 0 (offset cto)) / tf))
        ∧ p' !! "unit_id" = Some target
        ∧ p' = <["unit_id" := target]>
                 (<["value" := PNum (((v * ff + default 0 (offset cfrom))
                                      - default 0 (offset cto)) / tf)]> point).
Proof.
  intros Hv Hu Hne Hfrom Hto Hff Hff0 Htf Htf0.
  eexists. split; [by eapply convert_unit_numeric|].
  split; [|split; [|done]].
  - rewrite lookup_insert_ne by done. apply lookup_insert_eq.
  - apply lookup_insert_eq.
Qed.

Lemma convertible_dec a : convertible a ∨ ¬ convertible a.
Proof.
  destruct a as [[[[f|] o]|]].
  - destruct (decide (f = 0)) as [-> | Hne].
    + right. intros (cf & g & [= <-] & [= <-] & Hg). done.
    + left. by eexists _, f.
  - right. intros (cf & g & [= <-] & [=] & _).
  - right. intros (cf & g & [=] & _).
Qed.

Lemma convertible_conv_of u a :
  lookup_units u = Ok a -> convertible a ->
  ∃ cf f, conv_of u = Ok cf ∧ factor cf = Some f ∧ f ≠ 0.
Proof.
  intros Hu (cf & f & Hcf & Hf & Hne). exists cf, f.
  unfold lookup_conv_factor. rewrite Hu. simpl. by rewrite Hcf.
Qed.

Lemma not_convertible_conv_of u a :
  lookup_units u = Ok a -> ¬ convertible a ->
  conv_of u = Raise AttributeError
  ∨ ∃ cf, conv_of u = Ok cf ∧ py_truthy (cf_factor cf) = false.
Proof.
  intros Hu Hn. unfold lookup_conv_factor. rewrite Hu. simpl.
  destruct (baseConvFactor a) as [cf|] eqn:Hcf; [|by left].
  right. exists cf. split; [done|].
  apply py_falsy_factor.
  destruct (factor cf) as [f|] eqn:Hf; [|by left].
  right. f_equal. destruct (decide (f = 0)) as [|Hne]; [done|].
  destruct Hn. by exists cf, f.
Qed.

(** C3: for a point whose unit is not the target, a source or target unit
    without a usable factor makes [convert_unit] raise, so that nothing is
    returned at all; with both factors present and non-zero the
    "not convertible" exception is not raised. *)
Theorem convert_unit_non_convertible (point : dict) target afrom ato :
  py_get point "unit_id" ≠ PNone ->
  py_get point "unit_id" ≠ target ->
  lookup_units (py_get point "unit_id") = Ok afrom ->
  lookup_units target = Ok ato ->
  (¬ convertible afrom ∨ ¬ convertible ato ->
     ∃ e, convert point target = Raise e)
  ∧ (convertible afrom -> convertible ato ->
     ∀ w, convert point target ≠ Raise (NotConvertible w)).
Proof.
  intros Hu Hne Hfrom Hto. split.
  - intros Hbad. unfold convert_unit.
    rewrite convert_unit_proceeds by done.
    rewrite (py_item_get point "unit_id") by done. simpl.
    destruct (convertible_dec afrom) as [Hc|Hn].
    + destruct Hbad as [|Hnto]; [done|].
      destruct (convertible_conv_of _ _ Hfrom Hc) as (cf & f & -> & Hf & Hf0).
      simpl. rewrite (py_truthy_factor _ _ Hf Hf0). simpl.
      destruct (not_convertible_conv_of _ _ Hto Hnto) as [Ht | (ct & Ht & Hfalse)];
        rewrite Ht; simpl; rewrite ?Hfalse; simpl; eauto.
    + destruct (not_convertible_conv_of _ _ Hfrom Hn) as [Hf | (cf & Hf & Hfalse)];
        rewrite Hf; simpl; rewrite ?Hfalse; simpl; eauto.
  - intros Hcf Hct w.
    destruct (convertible_conv_of _ _ Hfrom Hcf) as (cf & ff & Hcf' & Hff & Hff0).
    destruct (convertible_conv_of _ _ Hto Hct) as (ct & tf & Hct' & Htf & Htf0).
    rewrite (convert_unit_convertible _ _ _ _ _ _ Hu Hne Hcf' Hct' Hff Hff0 Htf Htf0).
    unfold py_get, py_item.
    destruct (point !! "value") as [[|v|s]|]; simpl; discriminate.
Qed.

(** What a successful conversion to another unit returns: the point with
    the target unit written over [unit_id], after at most one write to
    [value]. *)
Lemma convert_unit_Ok_inv (point p' : dict) target :
  py_get point "unit_id" ≠ PNone ->
  py_get point "unit_id" ≠ target ->
  convert point target = Ok p' ->
  p' = <["unit_id" := target]> point
  ∨ ∃ c, p' = <["unit_id" := target]> (<["value" := c]> point).
Proof.
  intros Hu Hne. unfold convert_unit.
  rewrite convert_unit_proceeds by done.
  rewrite (py_item_get point "unit_id") by done. simpl.
  destruct (conv_of (py_get point "unit_id")) as [cf|]; simpl; [|done].
  destruct (negb (py_truthy (cf_factor cf))); [done|].
  destruct (conv_of target) as [ct|]; simpl; [|done].
  destruct (negb (py_truthy (cf_factor ct))); [done|].
  destruct (negb (bool_decide (py_get point "value" = PNone))); simpl.
  - destruct (py_item point "value") as [v|]; simpl; [|done].
    destruct (py_arith Qcmult v (cf_factor cf)) as [a|]; simpl; [|done].
    destruct (py_arith Qcplus a (cf_offset cf)) as [b|]; simpl; [|done].
    destruct (py_arith Qcminus b (cf_offset ct)) as [c|]; simpl; [|done].
    destruct (py_arith Qcdiv c (cf_factor ct)) as [d|]; simpl; [|done].
    intros [= <-]. right. by exists d.
  - intros [= <-]. by left.
Qed.

(** C8 (as amended): a successful conversion to a unit other than the
    point's own sets [unit_id] to the target and leaves every field other
    than [unit_id] and [value] as it was. *)
Theorem convert_unit_frame (point p' : dict) target :
  py_get point "unit_id" ≠ PNone ->
  py_get point "unit_id" ≠ target ->
  convert point target = Ok p' ->
  p' !! "unit_id" = Some target
  ∧ ∀ k : string, k ≠ "unit_id"%string -> k ≠ "value"%string -> p' !! k = point !! k.
Proof.
  intros Hu Hne Hc.
  destruct (convert_unit_Ok_inv _ _ _ Hu Hne Hc) as [-> | [c ->]].
  - split; [apply lookup_insert_eq|].
    intros k Hk _. by rewrite lookup_insert_ne.
  - split; [apply lookup_insert_eq|].
    intros k Hk Hk'. by rewrite !lookup_insert_ne.
Qed.

(** C10: a null value under convertible units is not touched; only the
    unit is rewritten. *)
Theorem convert_unit_null_value (point : dict) target cfrom cto ff tf :
  py_get point "value" = PNone ->
  py_get point "unit_id" ≠ PNone ->
  py_get point "unit_id" ≠ target ->
  conv_of (py_get point "unit_id") = Ok cfrom ->
  conv_of target = Ok cto ->
  factor cfrom = Some ff -> ff ≠ 0 ->
  factor cto = Some tf -> tf ≠ 0 ->
  ∃ p', convert point target = Ok p'
        ∧ p' = <["unit_id" := target]> point
        ∧ p' !! "value" = point !! "value"
        ∧ py_get p' "value" = PNone.
Proof.
  intros Hv Hu Hne Hfrom Hto Hff Hff0 Htf Htf0.
  exists (<["unit_id" := target]> point).
  split; [by eapply convert_unit_null|]. split; [done|].
  assert (Hl : (<["unit_id" := target]> point : dict) !! "value" = point !! "value")
    by by rewrite lookup_insert_ne.
  split; [done|]. unfold py_get in *. by rewrite Hl.
Qed.



End ConvertUnit.

(** ** The conversions at the sample data *)

Section ConvertUnitSamples.

Local Open Scope Qc_scope.

(** The example of the specification, run through the source. *)
Lemma sample_conversion :
  convert_unit Examples.units_table Examples.point_100 (PNum 2)
  = Ok {[ "value" := PNum (Qc_of_Z 100000); "unit_id" := PNum 2;
          "start_date" := PStr "2017-01-01T00:00:00.000Z" ]}.
Proof.
  rewrite (convert_unit_convertible Examples.units_table Examples.point_100 (PNum 2)
             (ConvFactor (Some (Qc_of_Z 1000)) (Some 0))
             (ConvFactor (Some 1) (Some 0))
             (Qc_of_Z 1000) 1); try done.
  transitivity
    (Ok (<["unit_id" := PNum 2]>
           (<["value" := PNum ((Qc_of_Z 100 * Qc_of_Z 1000 + 0 - 0) / 1)]>
              Examples.point_100))); [reflexivity|].
  replace ((Qc_of_Z 100 * Qc_of_Z 1000 + 0 - 0) / 1) with (Qc_of_Z 100000)
    by (apply Qc_is_canon; reflexivity).
  reflexivity.
Qed.

Lemma convert_unit_identity_witness :
  convert_unit Examples.no_lookup Examples.point_100 (PNum 1) = Ok Examples.point_100
  ∧ convert_unit Examples.no_lookup (delete "unit_id" Examples.point_100) (PNum 2)
    = Ok (delete "unit_id" Examples.point_100).
Proof.
  split.
  - apply convert_unit_identity. right. reflexivity.
  - apply convert_unit_identity. left. reflexivity.
Defined.

Lemma convert_unit_two_hop_witness :
  ∃ p', convert_unit Examples.units_table Examples.point_100 (PNum 2) = Ok p'
        ∧ p' !! "value" = Some (PNum (Qc_of_Z 100000))
        ∧ p' !! "unit_id" = Some (PNum 2).
Proof.
  destruct (convert_unit_two_hop Examples.units_table Examples.point_100 (PNum 2)
              (Qc_of_Z 100)
              (ConvFactor (Some (Qc_of_Z 1000)) (Some 0))
              (ConvFactor (Some 1) (Some 0))
              (Qc_of_Z 1000) 1) as (p' & Hp' & Hv & Hu & _); try done.
  exists p'. split; [exact Hp'|]. split; [|exact Hu].
  rewrite Hv. simpl. do 2 f_equal.
  apply Qc_is_canon. reflexivity.
Defined.

Lemma convert_unit_non_convertible_witness :
  (∃ e, convert_unit Examples.units_table Examples.point_unit3 (PNum 2) = Raise e)
  ∧ (∃ e, convert_unit Examples.units_table Examples.point_100 (PNum (Qc_of_Z 3)) = Raise e)
  ∧ (∀ w, convert_unit Examples.units_table Examples.point_100 (PNum 2)
          ≠ Raise (NotConvertible w)).
Proof.
  assert (H3 : ¬ convertible (UnitAttrs (Some (ConvFactor None None))))
    by (intros (cf & f & [= <-] & [=] & _)).
  assert (H1 : convertible (UnitAttrs (Some (ConvFactor (Some (Qc_of_Z 1000)) (Some 0)))))
    by (by eexists _, _).
  assert (H2 : convertible (UnitAttrs (Some (ConvFactor (Some 1) (Some 0)))))
    by (by eexists _, _).
  split; [|split].
  - eapply (proj1 (convert_unit_non_convertible Examples.units_table
                     Examples.point_unit3 (PNum 2) _ _
                     ltac:(done) ltac:(done) eq_refl eq_refl)).
    by left.
  - eapply (proj1 (convert_unit_non_convertible Examples.units_table
                     Examples.point_100 (PNum (Qc_of_Z 3)) _ _
                     ltac:(done) ltac:(done) eq_refl eq_refl)).
    by right.
  - eapply (proj2 (convert_unit_non_convertible Examples.units_table
                     Examples.point_100 (PNum 2) _ _
                     ltac:(done) ltac:(done) eq_refl eq_refl)); done.
Defined.

(** C8 as stated fails: the value is a field other than [unit_id], and it
    is converted (100 becomes 100000 at the sample data). *)
Lemma convert_unit_changes_value :
  ∃ p', convert_unit Examples.units_table Examples.point_100 (PNum 2) = Ok p'
        ∧ ¬ (∀ k : string, k ≠ "unit_id"%string -> p' !! k = Examples.point_100 !! k).
Proof.
  eexists. split; [apply sample_conversion|].
  intros H. specialize (H "value"%string ltac:(done)).
  vm_compute in H. discriminate H.
Qed.

Lemma convert_unit_frame_witness :
  ∃ p', convert_unit Examples.units_table Examples.point_100 (PNum 2) = Ok p'
        ∧ p' !! "unit_id" = Some (PNum 2)
        ∧ p' !! "start_date" = Examples.point_100 !! "start_date".
Proof.
  eexists. split; [apply sample_conversion|].
  destruct (convert_unit_frame Examples.units_table Examples.point_100 _ (PNum 2)
              ltac:(done) ltac:(done) sample_conversion) as [Hu Hk].
  split; [exact Hu|]. by apply Hk.
Defined.

Lemma convert_unit_null_value_witness :
  ∃ p', convert_unit Examples.units_table Examples.point_null (PNum 2) = Ok p'
        ∧ p' = <["unit_id" := PNum 2]> Examples.point_null
        ∧ p' !! "value" = Examples.point_null !! "value"
        ∧ py_get p' "value" = PNone.
Proof.
  apply (convert_unit_null_value Examples.units_table Examples.point_null (PNum 2)
           (ConvFactor (Some (Qc_of_Z 1000)) (Some 0))
           (ConvFactor (Some 1) (Some 0)) (Qc_of_Z 1000) 1); done.
Defined.


End ConvertUnitSamples.

(** ** itertools.product *)

Section Product.

Context {A : Type}.
Implicit Types (pool : list A) (pools : list (list A)) (c : list A).

Lemma itertools_product_cons pool pools :
  itertools_product (pool :: pools)
  = pool ≫= (fun x => (x ::.) <$> itertools_product pools).
Proof. done. Qed.

Lemma length_bind_uniform {B : Type} (f : A -> list B) n pool :
  (∀ y, length (f y) = n) -> length (pool ≫= f) = length pool * n.
Proof.
  intros Hf. induction pool as [|y pool IH]; [done|].
  rewrite bind_cons, length_app, IH, Hf. simpl. lia.
Qed.

Lemma length_itertools_product pools :
  length (itertools_product pools) = product_size pools.
Proof.
  induction pools as [|pool pools IH]; [done|].
  rewrite itertools_product_cons.
  rewrite (length_bind_uniform _ (product_size pools)); [done|].
  intros y. by rewrite length_fmap.
Qed.

Lemma elem_of_itertools_product pools c :
  c ∈ itertools_product pools ↔ Forall2 (fun x pool => x ∈ pool) c pools.
Proof.
  revert c. induction pools as [|pool pools IH]; intros c.
  - simpl. rewrite list_elem_of_singleton. split.
    + intros ->. constructor.
    + by intros ->%Forall2_nil_inv_r.
  - rewrite itertools_product_cons, list_elem_of_bind. split.
    + intros (x & Hc & Hx). apply list_elem_of_fmap in Hc as (c' & -> & Hc').
      constructor; [done|]. by apply IH.
    + intros (x & c' & Hx & Hc' & ->)%Forall2_cons_inv_r.
      exists x. split; [|done]. apply list_elem_of_fmap.
      exists c'. split; [done|]. by apply IH.
Qed.

Lemma lookup_bind_uniform {B : Type} (f : A -> list B) n pool i j x :
  (∀ y, length (f y) = n) ->
  pool !! i = Some x -> j < n ->
  (pool ≫= f) !! (i * n + j) = f x !! j.
Proof.
  intros Hf. revert i. induction pool as [|y pool IH]; intros i Hi Hj; [done|].
  rewrite bind_cons. destruct i as [|i]; simpl in *.
  - injection Hi as ->. apply lookup_app_l. by rewrite Hf.
  - rewrite lookup_app_r by (rewrite Hf; lia).
    rewrite Hf. replace (n + i * n + j - n) with (i * n + j) by lia.
    by apply IH.
Qed.

Lemma position_lt idx pools c :
  Forall3 (fun i pool x => pool !! i = Some x) idx pools c ->
  position idx pools < product_size pools.
Proof.
  induction 1 as [|i pool x idx pools c Hi _ IH]; simpl; [lia|].
  apply lookup_lt_Some in Hi.
  assert (i * product_size pools + product_size pools ≤ length pool * product_size pools)
    by (replace (i * product_size pools + product_size pools)
          with (S i * product_size pools) by lia; apply Nat.mul_le_mono_r; lia).
  lia.
Qed.

Lemma lookup_itertools_product idx pools c :
  Forall3 (fun i pool x => pool !! i = Some x) idx pools c ->
  itertools_product pools !! position idx pools = Some c.
Proof.
  induction 1 as [|i pool x idx pools c Hi Hrest IH]; [done|].
  rewrite itertools_product_cons. simpl.
  rewrite (lookup_bind_uniform _ (product_size pools) pool i _ x).
  - by rewrite list_lookup_fmap, IH.
  - intros y. by rewrite length_fmap, length_itertools_product.
  - done.
  - by eapply position_lt.
Qed.

Lemma product_size_le d pools :
  Forall (fun pool => length pool ≤ d) pools ->
  product_size pools ≤ d ^ length pools.
Proof.
  induction 1 as [|pool pools Hp _ IH]; simpl; [lia|].
  by apply Nat.mul_le_mono.
Qed.

End Product.

(** ** find_data_series *)

Section FindDataSeries.

Variable search : string -> pyval -> result (list dict).
Variable get_data_series : dict -> result (list dict).
Variable rank_series_by_source : list dict -> result (list dict).
Variable depth : nat.

Local Abbreviation searched := (searched search depth).

Lemma py_item_truthy (d : dict) k :
  py_truthy (py_get d k) = true -> py_item d k = Ok (py_get d k).
Proof. intros H. apply py_item_get. by intros Hn; rewrite Hn in H. Qed.

(** One block of [find_data_series] appends the pool and the key of its
    dimension when the dimension is supplied, and nothing otherwise. *)
Lemma search_dimension_step kwargs d acc pools_d :
  Forall2 (searched kwargs)
    (filter (fun d => Is_true (py_truthy (py_get kwargs d.1.1))) [d]) pools_d ->
  search_dimension search depth kwargs d.1.1 d.1.2 d.2 acc
  = Ok (acc.1 ++ pools_d,
        acc.2 ++ (snd <$> filter (fun d => Is_true (py_truthy (py_get kwargs d.1.1))) [d])).
Proof.
  unfold search_dimension. rewrite filter_cons, filter_nil.
  destruct (py_truthy (py_get kwargs d.1.1)) eqn:Ht.
  - rewrite decide_True by done.
    intros (pool & ? & (found & Hs & ->) & ->%Forall2_nil_inv_l & ->)%Forall2_cons_inv_l.
    rewrite py_item_truthy by done. simpl. by rewrite Hs.
  - rewrite decide_False by (by intros []).
    intros ->%Forall2_nil_inv_l. simpl. rewrite !app_nil_r. by destruct acc.
Qed.

Lemma search_dimensions_supplied kwargs pools :
  Forall2 (searched kwargs) (supplied kwargs) pools ->
  search_dimensions search depth kwargs = Ok (pools, snd <$> supplied kwargs).
Proof.
  unfold supplied.
  change DIMENSIONS with
    ([("item"%string, "items"%string, "item_id"%string)]
     ++ [("metric"%string, "metrics"%string, "metric_id"%string)]
     ++ [("region"%string, "regions"%string, "region_id"%string)]
     ++ [("partner_region"%string, "regions"%string, "partner_region_id"%string)]).
  rewrite !filter_app.
  intros (p1 & ? & H1 & (p2 & ? & H2 & (p3 & p4 & H3 & H4 & ->)%Forall2_app_inv_l
                           & ->)%Forall2_app_inv_l & ->)%Forall2_app_inv_l.
  unfold search_dimensions.
  rewrite (search_dimension_step kwargs ("item", "items", "item_id")%string _ p1 H1). simpl.
  rewrite (search_dimension_step kwargs ("metric", "metrics", "metric_id")%string _ p2 H2). simpl.
  rewrite (search_dimension_step kwargs ("region", "regions", "region_id")%string _ p3 H3). simpl.
  rewrite (search_dimension_step kwargs
             ("partner_region", "regions", "partner_region_id")%string _ p4 H4). simpl.
  by rewrite !fmap_app, <- !app_assoc.
Qed.

(** C4 (as amended): with the searches of the supplied dimensions cut to
    [depth], the sweep enumerates the Cartesian product of the pools, in the
    fixed dimension order and dimension-major: there are at most four pools,
    the number of combinations is the product of the pool sizes and at most
    [depth ^ k], the tuple taking element [i] of each pool sits at mixed-radix
    position [i] with the first dimension most significant, and with no
    dimension supplied there is exactly one, empty, combination. *)
Theorem combinations_cartesian kwargs pools :
  Forall2 (searched kwargs) (supplied kwargs) pools ->
  ∃ combs, combinations search depth kwargs = Ok combs
    ∧ length pools ≤ 4
    ∧ length combs = product_size pools
    ∧ length combs ≤ depth ^ length pools
    ∧ (∀ c, c ∈ combs ↔ Forall2 (fun x pool => x ∈ pool) c pools)
    ∧ (∀ idx c, Forall3 (fun i pool x => pool !! i = Some x) idx pools c ->
                combs !! position idx pools = Some c)
    ∧ (pools = [] -> combs = [[]]).
Proof.
  intros Hs. exists (itertools_product pools).
  unfold combinations. rewrite (search_dimensions_supplied _ _ Hs). simpl.
  split; [done|]. split.
  { rewrite <- (Forall2_length _ _ _ Hs). unfold supplied.
    etransitivity; [apply length_filter|]. done. }
  split; [apply length_itertools_product|]. split.
  { rewrite length_itertools_product. apply product_size_le.
    clear -Hs. induction Hs as [|d pool ds pools (found & _ & ->) _ IH]; constructor;
      [|done].
    rewrite length_take. lia. }
  split; [apply elem_of_itertools_product|].
  split; [intros idx c; apply lookup_itertools_product|].
  by intros ->.
Qed.

(** The combinations of [combinations] are those [find_data_series]
    sweeps. *)
Lemma find_data_series_sweeps_combinations kwargs pools keys :
  search_dimensions search depth kwargs = Ok (pools, keys) ->
  combinations search depth kwargs = Ok (itertools_product pools)
  ∧ find_data_series search get_data_series rank_series_by_source depth kwargs
    = (all_data_series ← sweep get_data_series kwargs keys [] (itertools_product pools);
       rank_series_by_source all_data_series).
Proof. intros Hs. unfold combinations, find_data_series. by rewrite Hs. Qed.

Lemma sweep_step_Ok kwargs keys all comb dsl :
  series_of_comb get_data_series keys comb = Ok dsl ->
  sweep_step get_data_series kwargs keys all comb
  = Ok (all ++ (stamp_dates kwargs <$> dsl)).
Proof.
  unfold sweep_step, series_of_comb.
  destruct (entities_of keys comb) as [entities|]; simpl; [|done].
  by intros ->.
Qed.

Lemma sweep_app kwargs keys all (done rest : list (list dict)) (lists : list (list dict)) :
  Forall2 (fun c dsl => series_of_comb get_data_series keys c = Ok dsl) done lists ->
  sweep get_data_series kwargs keys all (done ++ rest)
  = sweep get_data_series kwargs keys
      (all ++ stamped_concat kwargs lists) rest.
Proof.
  intros H. revert all. induction H as [|c dsl done lists Hc _ IH]; intros all.
  - simpl. unfold stamped_concat. simpl. by rewrite app_nil_r.
  - simpl. rewrite (sweep_step_Ok _ _ _ _ _ Hc). simpl.
    rewrite IH. unfold stamped_concat. simpl. by rewrite app_assoc.
Qed.

(** C1 (as amended): a failure of [get_data_series] for one combination
    is not absorbed.  The first combination whose lookup fails ends the
    sweep: [find_data_series] raises that exception and yields nothing,
    whatever the remaining combinations would have returned.  When every
    lookup succeeds, the ranked concatenation of the stamped lists is
    yielded. *)
Theorem find_data_series_propagates kwargs pools keys :
  search_dimensions search depth kwargs = Ok (pools, keys) ->
  (∀ (done : list (list dict)) comb rest (lists : list (list dict)) entities e,
     itertools_product pools = done ++ comb :: rest ->
     Forall2 (fun c dsl => series_of_comb get_data_series keys c = Ok dsl) done lists ->
     entities_of keys comb = Ok entities ->
     get_data_series entities = Raise e ->
     find_data_series search get_data_series rank_series_by_source depth kwargs = Raise e)
  ∧ (∀ lists : list (list dict),
     Forall2 (fun c dsl => series_of_comb get_data_series keys c = Ok dsl)
       (itertools_product pools) lists ->
     find_data_series search get_data_series rank_series_by_source depth kwargs
     = rank_series_by_source (stamped_concat kwargs lists)).
Proof.
  intros Hs. unfold find_data_series. rewrite Hs. simpl. split.
  - intros done comb rest lists entities e -> Hdone Hent Hfail.
    rewrite (sweep_app _ _ _ _ _ _ Hdone). simpl.
    unfold sweep_step. rewrite Hent. simpl. by rewrite Hfail.
  - intros lists Hall.
    rewrite <- (app_nil_r (itertools_product pools)).
    by rewrite (sweep_app _ _ _ _ _ _ Hall).
Qed.

End FindDataSeries.

(** ** The sweep at the sample data *)

(** C4 as stated fails for a call without any dimension: the product of
    no pool is one empty combination, not zero combinations. *)
Lemma no_dimension_one_combination :
  ¬ (∃ combs,
       combinations Examples.search_stub cfg.MAX_RESULT_COMBINATION_DEPTH ∅ = Ok combs
       ∧ length combs = 0).
Proof.
  intros (combs & H & Hl). vm_compute in H. injection H as <-. discriminate Hl.
Qed.

(** That one combination is looked up, without any constraint. *)
Example no_dimension_is_looked_up :
  find_data_series Examples.search_stub Examples.steady_get_data_series
    Examples.rank_stub cfg.MAX_RESULT_COMBINATION_DEPTH ∅
  = Ok [Examples.series 270 2].
Proof. reflexivity. Qed.

Lemma combinations_cartesian_witness :
  ∃ combs,
    combinations Examples.search_stub cfg.MAX_RESULT_COMBINATION_DEPTH
      Examples.kwargs_item_metric = Ok combs
    ∧ length combs = 6
    ∧ length combs ≤ 3 ^ 2
    ∧ combs !! 0 = Some [Examples.entity 274 "Corn"; Examples.entity 10 "m10"]
    ∧ combs !! 2 = Some [Examples.entity 274 "Corn"; Examples.entity 12 "m12"]
    ∧ combs !! 3 = Some [Examples.entity 270 "Soybeans"; Examples.entity 10 "m10"]
    ∧ combs !! 4 = Some [Examples.entity 270 "Soybeans"; Examples.entity 11 "m11"].
Proof.
  set (items := [Examples.entity 274 "Corn"; Examples.entity 270 "Soybeans"]).
  set (metrics := [Examples.entity 10 "m10"; Examples.entity 11 "m11";
                   Examples.entity 12 "m12"]).
  destruct (combinations_cartesian Examples.search_stub cfg.MAX_RESULT_COMBINATION_DEPTH
              Examples.kwargs_item_metric [items; metrics])
    as (combs & Hc & _ & Hlen & Hle & _ & Hpos & _).
  { change (supplied Examples.kwargs_item_metric)
      with [("item", "items", "item_id"); ("metric", "metrics", "metric_id")]%string.
    repeat constructor; eexists; (split; [reflexivity|]); reflexivity. }
  exists combs. split; [exact Hc|]. split; [exact Hlen|]. split; [exact Hle|].
  split; [|split; [|split]].
  - apply (Hpos [0; 0]). by repeat constructor.
  - apply (Hpos [0; 2]). by repeat constructor.
  - apply (Hpos [1; 0]). by repeat constructor.
  - apply (Hpos [1; 1]). by repeat constructor.
Defined.

(** C1 as stated fails: with a lookup that fails for the first of two
    items, the source raises, where the tolerant sweep of the specification
    would still yield the series of the second item. *)
Lemma find_data_series_not_tolerant :
  find_data_series Examples.search_stub Examples.flaky_get_data_series
    Examples.rank_stub cfg.MAX_RESULT_COMBINATION_DEPTH Examples.kwargs_item
  = Raise (External "timeout")
  ∧ find_data_series_tolerant Examples.search_stub Examples.flaky_get_data_series
      Examples.rank_stub cfg.MAX_RESULT_COMBINATION_DEPTH Examples.kwargs_item
    = Ok [Examples.series 270 2]
  ∧ find_data_series Examples.search_stub Examples.flaky_get_data_series
      Examples.rank_stub cfg.MAX_RESULT_COMBINATION_DEPTH Examples.kwargs_item
    ≠ find_data_series_tolerant Examples.search_stub Examples.flaky_get_data_series
        Examples.rank_stub cfg.MAX_RESULT_COMBINATION_DEPTH Examples.kwargs_item.
Proof.
  assert (H1 : find_data_series Examples.search_stub Examples.flaky_get_data_series
                 Examples.rank_stub cfg.MAX_RESULT_COMBINATION_DEPTH Examples.kwargs_item
               = Raise (External "timeout")) by reflexivity.
  assert (H2 : find_data_series_tolerant Examples.search_stub
                 Examples.flaky_get_data_series Examples.rank_stub
                 cfg.MAX_RESULT_COMBINATION_DEPTH Examples.kwargs_item
               = Ok [Examples.series 270 2]) by reflexivity.
  split; [exact H1|]. split; [exact H2|]. rewrite H1, H2. discriminate.
Qed.

Lemma find_data_series_propagates_witness :
  find_data_series Examples.search_stub Examples.flaky_get_data_series
    Examples.rank_stub cfg.MAX_RESULT_COMBINATION_DEPTH Examples.kwargs_item
  = Raise (External "timeout")
  ∧ find_data_series Examples.search_stub Examples.steady_get_data_series
      Examples.rank_stub cfg.MAX_RESULT_COMBINATION_DEPTH Examples.kwargs_item
    = Ok [Examples.series 270 2; Examples.series 270 2].
Proof.
  set (corn := Examples.entity 274 "Corn").
  set (soy := Examples.entity 270 "Soybeans").
  split.
  - apply (proj1 (find_data_series_propagates Examples.search_stub
                    Examples.flaky_get_data_series Examples.rank_stub
                    cfg.MAX_RESULT_COMBINATION_DEPTH Examples.kwargs_item
                    [[corn; soy]] ["item_id"%string] eq_refl)
             [] [corn] [[soy]] [] {[ "item_id" := PNum (Qc_of_Z 274) ]} (External "timeout"));
      [reflexivity | constructor | reflexivity | reflexivity].
  - rewrite (proj2 (find_data_series_propagates Examples.search_stub
                      Examples.steady_get_data_series Examples.rank_stub
                      cfg.MAX_RESULT_COMBINATION_DEPTH Examples.kwargs_item
                      [[corn; soy]] ["item_id"%string] eq_refl)
               [[Examples.series 270 2]; [Examples.series 270 2]]);
      [reflexivity | by repeat constructor].
Defined.

(** ** get_df *)

Section GetDf.

Variable lookup_units : pyval -> result unit_attrs.
Variable Client_get_data_points : dict -> result (list dict).
Variable to_datetime : pyval -> result pyval.

Local Abbreviation fetch := (get_data_points lookup_units Client_get_data_points).
Local Abbreviation loop := (get_df_loop lookup_units Client_get_data_points to_datetime).



End GetDf.

(** ** Rows and the outer merge *)

Lemma lookup_mk_row cols cell c :
  mk_row cols cell !! c = if decide (c ∈ cols) then Some (cell c) else None.
Proof.
  unfold mk_row. destruct (decide (c ∈ cols)) as [Hc|Hc].
  - apply elem_of_list_to_map_1.
    + rewrite <- list_fmap_compose. simpl. rewrite list_fmap_id. apply NoDup_elements.
    + apply list_elem_of_fmap. exists c. by rewrite elem_of_elements.
  - apply not_elem_of_list_to_map_1.
    rewrite <- list_fmap_compose. simpl. rewrite list_fmap_id. by rewrite elem_of_elements.
Qed.

Lemma py_get_mk_row cols cell c :
  c ∈ cols -> py_get (mk_row cols cell) c = cell c.
Proof. intros Hc. unfold py_get. by rewrite lookup_mk_row, decide_True. Qed.

Lemma dom_mk_row cols cell : dom (mk_row cols cell) = cols.
Proof.
  apply set_eq. intros c. rewrite elem_of_dom, lookup_mk_row.
  destruct (decide (c ∈ cols)); [by split; eauto|].
  split; [by intros [? [=]]|done].
Qed.

(** A row over [cols] is rebuilt from its own cells. *)
Lemma mk_row_id cols cell (r : dict) :
  dom r = cols -> (∀ c, c ∈ cols -> cell c = py_get r c) -> mk_row cols cell = r.
Proof.
  intros Hdom Hcell. apply map_eq. intros c. rewrite lookup_mk_row.
  destruct (decide (c ∈ cols)) as [Hc|Hc].
  - rewrite (Hcell c Hc). unfold py_get.
    rewrite <- Hdom in Hc. apply elem_of_dom in Hc as [v ->]. done.
  - rewrite <- Hdom in Hc. by apply not_elem_of_dom in Hc.
Qed.

(** Two rows over the same columns that agree on them are one row. *)
Lemma row_match_eq cols (r1 r2 : dict) :
  dom r1 = cols -> dom r2 = cols -> row_match cols r1 r2 -> r1 = r2.
Proof.
  intros H1 H2 Hm. apply map_eq. intros c.
  destruct (decide (c ∈ cols)) as [Hc|Hc].
  - specialize (Hm c Hc). unfold py_get in Hm.
    pose proof Hc as Hc'. rewrite <- H1 in Hc. rewrite <- H2 in Hc'.
    apply elem_of_dom in Hc as [v1 Hv1]. apply elem_of_dom in Hc' as [v2 Hv2].
    rewrite Hv1, Hv2 in *. simpl in Hm. by subst.
  - pose proof Hc as Hc'. rewrite <- H1 in Hc. rewrite <- H2 in Hc'.
    apply not_elem_of_dom in Hc, Hc'. by rewrite Hc, Hc'.
Qed.

Lemma row_match_refl cols (r : dict) : row_match cols r r.
Proof. by intros c _. Qed.

Section ListFacts.

Context {A : Type}.

Lemma filter_at_most_one (P : A -> Prop) `{∀ x, Decision (P x)} (l : list A) :
  NoDup l ->
  (∀ x y, x ∈ l -> y ∈ l -> P x -> P y -> x = y) ->
  filter P l = [] ∨ ∃ x, filter P l = [x].
Proof.
  intros Hnd Huniq.
  pose proof (NoDup_filter P l Hnd) as Hndf.
  destruct (filter P l) as [|x [|y k]] eqn:Hf; [by left|by right; eexists|].
  exfalso.
  assert (Hx : x ∈ filter P l) by (rewrite Hf; left).
  assert (Hy : y ∈ filter P l) by (rewrite Hf; right; left).
  apply list_elem_of_filter in Hx as [Px Hx]. apply list_elem_of_filter in Hy as [Py Hy].
  pose proof (Huniq x y Hx Hy Px Py) as ->.
  apply NoDup_cons in Hndf as [Hn _]. apply Hn. left.
Qed.

Lemma bind_singleton_id (g : A -> list A) (l : list A) :
  (∀ x, x ∈ l -> g x = [x]) -> l ≫= g = l.
Proof.
  induction l as [|x l IH]; intros Hg; [done|].
  rewrite bind_cons, Hg by left. simpl. f_equal.
  apply IH. intros y Hy. apply Hg. by right.
Qed.

Lemma filter_nil_Forall (P : A -> Prop) `{∀ x, Decision (P x)} (l : list A) :
  Forall (fun x => ¬ P x) l -> filter P l = [].
Proof.
  induction 1 as [|x l Hx _ IH]; [done|]. by rewrite filter_cons_False.
Qed.

End ListFacts.

(** Merging into a table a batch it already holds changes nothing: when
    the columns of the batch are columns of the table, the rows of the batch
    are pairwise distinct, and each of them agrees with some row of the table
    on the columns of the batch. *)
Lemma merge_outer_absorbed (M b : DataFrame) :
  columns b ⊆ columns M -> columns b ≠ ∅ ->
  wf_frame M -> wf_frame b -> NoDup (rows b) ->
  Forall (fun r => Exists (fun m => row_match (columns b) m r) (rows M)) (rows b) ->
  merge_outer M b = Ok M.
Proof.
  intros Hsub Hne HwfM Hwfb Hnd Hcov. unfold merge_outer.
  assert (Hon : columns M ∩ columns b = columns b)
    by (rewrite (comm_L (∩)); by apply subseteq_intersection_1_L).
  assert (Hcols : columns M ∪ columns b = columns M)
    by (rewrite (comm_L (∪)); by apply subseteq_union_1_L).
  rewrite Hon, Hcols. rewrite bool_decide_eq_false_2 by done.
  destruct M as [CM RM]. simpl in *. f_equal. f_equal.
  rewrite (filter_nil_Forall _ (rows b)); cycle 1.
  { eapply Forall_impl; [exact Hcov|]. intros r Hex Hnil. simpl in Hnil.
    apply Exists_exists in Hex as (m & Hm & Hmr).
    exact (filter_nil_not_elem_of _ _ m Hnil Hmr Hm). }
  simpl. rewrite app_nil_r.
  apply bind_singleton_id. intros m Hm.
  assert (Hdm : dom m = CM).
  { unfold wf_frame in HwfM. rewrite Forall_forall in HwfM. by apply HwfM. }
  assert (Hself : ∀ other : string -> pyval,
            mk_row CM (fun c => if bool_decide (c ∈ CM) then py_get m c else other c) = m).
  { intros other. apply mk_row_id; [done|]. intros c Hc.
    by rewrite bool_decide_eq_true_2. }
  destruct (filter_at_most_one (row_match (columns b) m) (rows b) Hnd) as [-> | [r ->]].
  - intros x y Hx Hy Px Py.
    unfold wf_frame in Hwfb. rewrite Forall_forall in Hwfb.
    apply (row_match_eq (columns b)); [by apply Hwfb|by apply Hwfb|].
    intros c Hc. by rewrite <- (Px c Hc), <- (Py c Hc).
  - f_equal. apply (Hself (fun _ => PNone)).
  - simpl. f_equal. apply (Hself (py_get r)).
Qed.

Lemma merge_outer_inv (T b M1 : DataFrame) :
  merge_outer T b = Ok M1 ->
  columns T ∩ columns b ≠ ∅
  ∧ columns M1 = columns T ∪ columns b
  ∧ ∀ m, m ∈ rows M1 ↔
      (∃ l r, l ∈ rows T ∧ r ∈ rows b ∧ row_match (columns T ∩ columns b) l r
              ∧ m = mk_row (columns T ∪ columns b)
                      (fun c => if bool_decide (c ∈ columns T) then py_get l c
                                else py_get r c))
      ∨ (∃ l, l ∈ rows T ∧ filter (row_match (columns T ∩ columns b) l) (rows b) = []
              ∧ m = mk_row (columns T ∪ columns b)
                      (fun c => if bool_decide (c ∈ columns T) then py_get l c else PNone))
      ∨ (∃ r, r ∈ rows b
              ∧ filter (fun l => row_match (columns T ∩ columns b) l r) (rows T) = []
              ∧ m = mk_row (columns T ∪ columns b)
                      (fun c => if bool_decide (c ∈ columns b) then py_get r c else PNone)).
Proof.
  unfold merge_outer. case_bool_decide as Hon; [done|].
  intros [= <-]. cbn [columns rows]. split; [done|]. split; [done|].
  intros m. rewrite elem_of_app, list_elem_of_bind, list_elem_of_fmap. split.
  - intros [(l & Hm & Hl) | (r & -> & Hr)].
    + destruct (filter (row_match (columns T ∩ columns b) l) (rows b)) as [|r0 ms] eqn:Hf.
      * apply list_elem_of_singleton in Hm as ->. right. left. by exists l.
      * assert (∃ r, r ∈ r0 :: ms
                     ∧ m = mk_row (columns T ∪ columns b)
                             (fun c => if bool_decide (c ∈ columns T) then py_get l c
                                       else py_get r c)) as (r & Hr & ->).
        { apply elem_of_cons in Hm as [-> | Hm]; [eexists; split; [left|done]|].
          apply list_elem_of_fmap in Hm as (r & -> & Hr).
          eexists; split; [by right|done]. }
        rewrite <- Hf in Hr.
        apply list_elem_of_filter in Hr as [Hlr Hr]. left. by exists l, r.
    + apply list_elem_of_filter in Hr as [Hnil Hr]. right. right. by exists r.
  - intros [(l & r & Hl & Hr & Hlr & ->) | [(l & Hl & Hf & ->) | (r & Hr & Hf & ->)]].
    + left. exists l. split; [|done].
      assert (Hin : r ∈ filter (row_match (columns T ∩ columns b) l) (rows b))
        by by apply list_elem_of_filter.
      destruct (filter (row_match (columns T ∩ columns b) l) (rows b)) as [|r0 ms];
        [by apply elem_of_nil in Hin|].
      apply elem_of_cons in Hin as [-> | Hin]; [left|right].
      apply list_elem_of_fmap. by exists r.
    + left. exists l. split; [|done]. rewrite Hf. by apply list_elem_of_singleton.
    + right. exists r. split; [done|]. by apply list_elem_of_filter.
Qed.

Lemma merge_outer_wf (T b M1 : DataFrame) :
  merge_outer T b = Ok M1 -> wf_frame M1.
Proof.
  intros H. destruct (merge_outer_inv _ _ _ H) as (_ & Hc & Hrows).
  unfold wf_frame. rewrite Forall_forall. intros m Hm. rewrite Hc.
  apply Hrows in Hm as [(l & r & _ & _ & _ & ->) | [(l & _ & _ & ->) | (r & _ & _ & ->)]];
    apply dom_mk_row.
Qed.

(** After the merge, each row of the batch agrees with some row of the
    table on the columns of the batch. *)
Lemma merge_outer_covers (T b M1 : DataFrame) :
  merge_outer T b = Ok M1 ->
  Forall (fun r => Exists (fun m => row_match (columns b) m r) (rows M1)) (rows b).
Proof.
  intros H. destruct (merge_outer_inv _ _ _ H) as (_ & _ & Hrows).
  rewrite Forall_forall. intros r Hr. apply Exists_exists.
  destruct (filter (fun l => row_match (columns T ∩ columns b) l r) (rows T))
    as [|l ls] eqn:Hf.
  - eexists. split.
    + apply Hrows. right. right. exists r. by split.
    + intros c Hc. rewrite py_get_mk_row by (apply elem_of_union; by right).
      by rewrite bool_decide_eq_true_2.
  - assert (Hl : l ∈ filter (fun l => row_match (columns T ∩ columns b) l r) (rows T))
      by (rewrite Hf; left).
    apply list_elem_of_filter in Hl as [Hlr Hl].
    eexists. split.
    + apply Hrows. left. exists l, r. by split.
    + intros c Hc. rewrite py_get_mk_row by (apply elem_of_union; by right).
      case_bool_decide as HcT; [|done].
      apply Hlr. by apply elem_of_intersection.
Qed.

(** ** add_points_to_df *)

Lemma mapR_Ok {A B : Type} (f : A -> result B) (xs : list A) (ys : list B) :
  mapR f xs = Ok ys -> Forall2 (fun x y => f x = Ok y) xs ys.
Proof.
  revert ys. induction xs as [|x xs IH]; intros ys; simpl.
  - intros [= <-]. constructor.
  - destruct (f x) as [y|] eqn:Hx; simpl; [|done].
    destruct (mapR f xs) as [ys'|]; simpl; [|done].
    intros [= <-]. constructor; [done|]. by apply IH.
Qed.

Lemma DataFrame_of_wf data : wf_frame (DataFrame_of data).
Proof.
  unfold wf_frame, DataFrame_of. simpl. rewrite Forall_fmap.
  apply Forall_forall. intros r _. apply dom_mk_row.
Qed.

Lemma set_column_wf c v df : wf_frame df -> wf_frame (set_column c v df).
Proof.
  unfold wf_frame, set_column. simpl. rewrite Forall_fmap.
  intros H. eapply Forall_impl; [exact H|].
  intros r Hr. simpl. by rewrite dom_insert_L, Hr.
Qed.

Section AddPoints.

Variable to_datetime : pyval -> result pyval.

Lemma parse_dates_Ok c tmp tmp' :
  parse_dates to_datetime c tmp = Ok tmp' ->
  columns tmp' = columns tmp
  ∧ length (rows tmp') = length (rows tmp)
  ∧ (wf_frame tmp -> wf_frame tmp').
Proof.
  unfold parse_dates. case_bool_decide as Hc; [|by intros [= <-]].
  destruct (mapR _ (rows tmp)) as [rows'|] eqn:Hmap; simpl; [|done].
  intros [= <-]. simpl. apply mapR_Ok in Hmap.
  split; [done|]. split; [symmetry; by eapply Forall2_length|].
  unfold wf_frame. simpl. intros Hwf.
  induction Hmap as [|r r' rs rs' Hr _ IH]; [constructor|].
  apply Forall_cons in Hwf as [Hd Hwf]. constructor; [|by apply IH].
  destruct (to_datetime (py_get r c)) as [v|]; simpl in Hr; [|done].
  injection Hr as <-. rewrite dom_insert_L, Hd.
  apply subseteq_union_1_L. by apply singleton_subseteq_l.
Qed.

(** The batch frame has all its cells, a [source_id] column and a row. *)
Lemma batch_frame_Some data_series data_points tmp :
  batch_frame to_datetime data_series data_points = Ok (Some tmp) ->
  wf_frame tmp ∧ columns tmp ≠ ∅ ∧ rows tmp ≠ [].
Proof.
  unfold batch_frame.
  destruct (df_empty (DataFrame_of data_points)) eqn:Hempty; [done|].
  destruct (py_item data_series "source_id") as [sid|]; simpl; [|done].
  destruct (parse_dates _ "end_date" _) as [t1|] eqn:H1; simpl; [|done].
  destruct (parse_dates _ "start_date" _) as [t2|] eqn:H2; simpl; [|done].
  destruct (parse_dates _ "reporting_date" _) as [t3|] eqn:H3; simpl; [|done].
  intros [= <-].
  apply parse_dates_Ok in H1 as (Hc1 & Hl1 & Hw1).
  apply parse_dates_Ok in H2 as (Hc2 & Hl2 & Hw2).
  apply parse_dates_Ok in H3 as (Hc3 & Hl3 & Hw3).
  split; [|split].
  - apply Hw3, Hw2, Hw1, set_column_wf, DataFrame_of_wf.
  - rewrite Hc3, Hc2, Hc1. intros He.
    apply (not_elem_of_empty (C:=gset string) "source_id"%string).
    rewrite <- He. simpl. apply elem_of_union. left. by apply elem_of_singleton.
  - intros Hnil.
    unfold df_empty in Hempty. apply orb_false_iff in Hempty as [_ Hrows].
    apply bool_decide_eq_false in Hrows. apply Hrows.
    apply length_zero_iff_nil.
    rewrite <- (length_fmap (fun r : dict => <["source_id" := sid]> r)).
    change (length (rows (set_column "source_id" sid (DataFrame_of data_points))) = 0).
    rewrite <- Hl1, <- Hl2, <- Hl3. by rewrite Hnil.
Qed.

(** Folding a batch of pairwise distinct rows a second time leaves the
    table as the first fold made it. *)
Lemma fold_batch_twice data_frame tmp df1 :
  wf_frame tmp -> columns tmp ≠ ∅ -> rows tmp ≠ [] -> NoDup (rows tmp) ->
  fold_batch data_frame tmp = Ok df1 ->
  fold_batch df1 tmp = Ok df1.
Proof.
  intros Hwf Hcols Hrows Hnd. unfold fold_batch.
  assert (Hne : df_empty tmp = false).
  { unfold df_empty. by rewrite !bool_decide_eq_false_2. }
  destruct (df_empty data_frame).
  - intros [= <-]. rewrite Hne.
    apply merge_outer_absorbed; try done.
    apply Forall_forall. intros r Hr. apply Exists_exists.
    exists r. split; [done|]. apply row_match_refl.
  - intros Hm.
    pose proof (merge_outer_covers _ _ _ Hm) as Hcov.
    destruct (merge_outer_inv _ _ _ Hm) as (_ & Hc & _).
    assert (Hsub : columns tmp ⊆ columns df1).
    { rewrite Hc. intros c Hcin. apply elem_of_union. by right. }
    assert (Hne1 : df_empty df1 = false).
    { unfold df_empty. apply orb_false_iff. split; apply bool_decide_eq_false.
      - intros He. rewrite He in Hsub. apply Hcols. apply set_eq. intros c.
        split; [apply Hsub|]. intros Hin. by apply not_elem_of_empty in Hin.
      - intros He. rewrite He in Hcov. destruct (rows tmp) as [|r rs]; [done|].
        apply Forall_cons in Hcov as [Hex _]. by apply Exists_nil in Hex. }
    rewrite Hne1.
    apply merge_outer_absorbed; try done. by eapply merge_outer_wf.
Qed.

(** C5 (as amended): when the batch, as the frame [add_points_to_df]
    makes of it, has no two identical rows, folding it a second time leaves
    the table with the same columns and the same rows up to their order;
    for every identifying key the number of rows carrying it is unchanged. *)
Theorem add_points_to_df_refold data_frame data_series data_points df1 :
  (∀ tmp, batch_frame to_datetime data_series data_points = Ok (Some tmp) ->
          NoDup (rows tmp)) ->
  add_points_to_df to_datetime data_frame data_series data_points = Ok df1 ->
  ∃ df2, add_points_to_df to_datetime df1 data_series data_points = Ok df2
         ∧ columns df2 = columns df1
         ∧ rows df2 ≡ₚ rows df1
         ∧ ∀ k, count_key k df2 = count_key k df1.
Proof.
  intros Hnd. unfold add_points_to_df.
  destruct (batch_frame to_datetime data_series data_points) as [[tmp|]|] eqn:Hb;
    simpl; [| |done].
  - intros Hfold. exists df1.
    destruct (batch_frame_Some _ _ _ Hb) as (Hwf & Hcols & Hrows).
    by rewrite (fold_batch_twice _ _ _ Hwf Hcols Hrows (Hnd _ eq_refl) Hfold).
  - intros [= <-]. by exists data_frame.
Qed.

End AddPoints.

(** ** The accumulator at the sample data *)

(** C5 as stated fails for a batch that holds the same observation twice:
    the first fold keeps its two rows, the second fold pairs each of them
    with both, and the key is carried by four rows. *)
Lemma refold_duplicates_rows :
  ∃ df1 df2,
    add_points_to_df Examples.to_datetime_stub DataFrame_empty (Examples.series 270 2)
      [Examples.obs "2017-01-01" 5; Examples.obs "2017-01-01" 5] = Ok df1
    ∧ add_points_to_df Examples.to_datetime_stub df1 (Examples.series 270 2)
        [Examples.obs "2017-01-01" 5; Examples.obs "2017-01-01" 5] = Ok df2
    ∧ count_key
        (identifying_key (<["source_id" := PNum (Qc_of_Z 2)]> (Examples.obs "2017-01-01" 5)))
        df1 = 2
    ∧ count_key
        (identifying_key (<["source_id" := PNum (Qc_of_Z 2)]> (Examples.obs "2017-01-01" 5)))
        df2 = 4.
Proof.
  eexists _, _. split; [vm_compute; reflexivity|].
  split; [vm_compute; reflexivity|]. split; vm_compute; reflexivity.
Qed.

Lemma add_points_to_df_refold_witness :
  ∃ df1 df2,
    add_points_to_df Examples.to_datetime_stub Examples.table_before
      (Examples.series 270 2)
      [Examples.obs "2017-01-01" 5; Examples.obs "2018-01-01" 7] = Ok df1
    ∧ length (rows df1) = 3
    ∧ add_points_to_df Examples.to_datetime_stub df1 (Examples.series 270 2)
        [Examples.obs "2017-01-01" 5; Examples.obs "2018-01-01" 7] = Ok df2
    ∧ columns df2 = columns df1
    ∧ rows df2 ≡ₚ rows df1
    ∧ ∀ k, count_key k df2 = count_key k df1.
Proof.
  assert (H1 : ∃ df1,
             add_points_to_df Examples.to_datetime_stub Examples.table_before
               (Examples.series 270 2)
               [Examples.obs "2017-01-01" 5; Examples.obs "2018-01-01" 7] = Ok df1
             ∧ length (rows df1) = 3).
  { eexists. split; vm_compute; reflexivity. }
  destruct H1 as (df1 & H1 & Hlen).
  destruct (add_points_to_df_refold Examples.to_datetime_stub Examples.table_before
              (Examples.series 270 2)
              [Examples.obs "2017-01-01" 5; Examples.obs "2018-01-01" 7] df1)
    as (df2 & H2 & Hc & Hp & Hk).
  - intros tmp Htmp. vm_compute in Htmp. injection Htmp as <-.
    apply (bool_decide_unpack _). vm_compute. exact I.
  - exact H1.
  - exists df1, df2.
    split; [exact H1|]. split; [exact Hlen|]. split; [exact H2|].
    split; [exact Hc|]. split; [exact Hp|exact Hk].
Defined.


(** * Further properties of the source *)

(** ** convert_unit *)

Section ConvertUnitMore.

Local Open Scope Qc_scope.

Variable lookup_units : pyval -> result unit_attrs.

Local Abbreviation convert := (convert_unit lookup_units).
Local Abbreviation conv_of := (lookup_conv_factor lookup_units).






Lemma convert_unit_at_target (lookup : pyval -> result unit_attrs) (point : dict) target :
  py_get point "unit_id" = target -> convert_unit lookup point target = Ok point.
Proof.
  intros <-. unfold convert_unit, py_eq.
  by rewrite (bool_decide_eq_true_2 (py_get point "unit_id" = py_get point "unit_id")),
    orb_true_r.
Qed.

(** X1: converting again to the same target changes nothing and needs no
    lookup: what a successful conversion returns is a fixed point of the
    conversion to that target, whatever the lookup then answers. *)
Theorem convert_unit_idempotent (lookup' : pyval -> result unit_attrs)
    (point p' : dict) target :
  convert point target = Ok p' ->
  convert_unit lookup' p' target = Ok p'.
Proof.
  intros Hc.
  destruct (decide (py_get point "unit_id" = PNone)) as [Hn | Hn].
  { assert (convert point target = Ok point) as Hid
      by (unfold convert_unit; by rewrite Hn).
    rewrite Hid in Hc. injection Hc as <-.
    unfold convert_unit. by rewrite Hn. }
  destruct (decide (py_get point "unit_id" = target)) as [He | He].
  { rewrite (convert_unit_at_target _ _ _ He) in Hc. injection Hc as <-.
    by apply convert_unit_at_target. }
  apply convert_unit_at_target.
  destruct (convert_unit_Ok_inv _ _ _ _ Hn He Hc) as [-> | [c ->]];
    apply py_get_lookup, lookup_insert_eq.
Qed.


(** X3: the exception names the unit at fault, and the source unit is
    examined first: when its factor is absent or zero, the conversion raises
    "source unit is not convertible" without regard to the target unit, whose
    lookup may even fail; with a usable source factor and an absent or zero
    target factor it names the target. *)
Theorem convert_unit_blames (point : dict) target cfrom :
  py_get point "unit_id" ≠ PNone ->
  py_get point "unit_id" ≠ target ->
  conv_of (py_get point "unit_id") = Ok cfrom ->
  (factor cfrom = None ∨ factor cfrom = Some 0 ->
     convert point target = Raise (NotConvertible (py_get point "unit_id")))
  ∧ (∀ ff cto, factor cfrom = Some ff -> ff ≠ 0 ->
       conv_of target = Ok cto -> factor cto = None ∨ factor cto = Some 0 ->
       convert point target = Raise (NotConvertible target)).
Proof.
  intros Hu Hne Hfrom. unfold convert_unit.
  rewrite convert_unit_proceeds by done.
  rewrite (py_item_get point "unit_id") by done. simpl. rewrite Hfrom. simpl.
  split.
  - intros Hbad. by rewrite (py_falsy_factor _ Hbad).
  - intros ff cto Hff Hff0 Hto Hbad.
    rewrite (py_truthy_factor _ _ Hff Hff0). simpl. rewrite Hto. simpl.
    by rewrite (py_falsy_factor _ Hbad).
Qed.

Lemma convert_unit_dom (point p' : dict) target :
  convert point target = Ok p' -> dom p' = dom point.
Proof.
  intros Hc.
  destruct (decide (py_get point "unit_id" = PNone)) as [Hn | Hn].
  { unfold convert_unit in Hc. rewrite Hn in Hc. simpl in Hc. by injection Hc as <-. }
  destruct (decide (py_get point "unit_id" = target)) as [He | He].
  { rewrite (convert_unit_at_target _ _ _ He) in Hc. by injection Hc as <-. }
  assert (Hunit : "unit_id"%string ∈ dom point).
  { apply elem_of_dom. unfold py_get in Hn.
    destruct (point !! "unit_id"); [by eexists|done]. }
  revert Hc. unfold convert_unit.
  rewrite convert_unit_proceeds by done.
  rewrite (py_item_get point "unit_id") by done. simpl.
  destruct (conv_of (py_get point "unit_id")) as [cf|]; simpl; [|done].
  destruct (negb (py_truthy (cf_factor cf))); [done|].
  destruct (conv_of target) as [ct|]; simpl; [|done].
  destruct (negb (py_truthy (cf_factor ct))); [done|].
  case_bool_decide as Hv; simpl.
  - intros [= <-]. rewrite dom_insert_L.
    apply subseteq_union_1_L. by apply singleton_subseteq_l.
  - assert (Hvalue : "value"%string ∈ dom point).
    { apply elem_of_dom. unfold py_get in Hv.
      destruct (point !! "value"); [by eexists|done]. }
    destruct (py_item point "value") as [v|]; simpl; [|done].
    destruct (py_arith Qcmult v (cf_factor cf)) as [a|]; simpl; [|done].
    destruct (py_arith Qcplus a (cf_offset cf)) as [b|]; simpl; [|done].
    destruct (py_arith Qcminus b (cf_offset ct)) as [c|]; simpl; [|done].
    destruct (py_arith Qcdiv c (cf_factor ct)) as [d|]; simpl; [|done].
    intros [= <-]. rewrite !dom_insert_L.
    rewrite (subseteq_union_1_L {["value"%string]} (dom point))
      by by apply singleton_subseteq_l.
    apply subseteq_union_1_L. by apply singleton_subseteq_l.
Qed.

(** X4: a conversion never adds or removes a field: the observation it
    returns has the keys of the observation it was given. *)
Theorem convert_unit_keeps_keys (point p' : dict) target :
  convert_unit lookup_units point target = Ok p' -> dom p' = dom point.
Proof. apply convert_unit_dom. Qed.

End ConvertUnitMore.

(** ** get_data_points *)

Section GetDataPointsMore.

Variable lookup_units : pyval -> result unit_attrs.
Variable Client_get_data_points : dict -> result (list dict).

Local Abbreviation convert := (convert_unit lookup_units).
Local Abbreviation fetch := (get_data_points lookup_units Client_get_data_points).

Lemma convert_unit_result_unit (point p' : dict) target :
  convert point target = Ok p' ->
  py_get p' "unit_id" = PNone ∨ py_get p' "unit_id" = target.
Proof.
  intros Hc.
  destruct (decide (py_get point "unit_id" = PNone)) as [Hn | Hn].
  { unfold convert_unit in Hc. rewrite Hn in Hc. simpl in Hc.
    injection Hc as <-. by left. }
  destruct (decide (py_get point "unit_id" = target)) as [He | He].
  { rewrite (convert_unit_at_target _ _ _ He) in Hc. injection Hc as <-. by right. }
  right.
  destruct (convert_unit_Ok_inv _ _ _ _ Hn He Hc) as [-> | [c ->]];
    apply py_get_lookup, lookup_insert_eq.
Qed.

(** X5: with a [unit_id] among the selections, the points that come back
    are as many as the parent client returned, in the same order, each with
    the keys of its original, and not one of them is left in another unit:
    its [unit_id] is the requested one, or null as it was. *)
Theorem get_data_points_in_target_unit (selections : dict) target pts' :
  selections !! "unit_id" = Some target ->
  fetch selections = Ok pts' ->
  ∃ pts, Client_get_data_points selections = Ok pts
    ∧ length pts' = length pts
    ∧ Forall2 (fun p p' : dict => dom p' = dom p) pts pts'
    ∧ Forall (fun p' => py_get p' "unit_id" = PNone ∨ py_get p' "unit_id" = target) pts'.
Proof.
  intros Hsel. unfold get_data_points.
  destruct (Client_get_data_points selections) as [pts|]; simpl; [|done].
  rewrite bool_decide_eq_true_2 by (rewrite Hsel; by eexists).
  unfold py_item. rewrite Hsel. simpl. intros Hmap.
  apply mapR_Ok in Hmap. exists pts. split; [done|].
  split; [symmetry; by eapply Forall2_length|].
  induction Hmap as [|p p' ps ps' Hp _ [IH1 IH2]]; [by split; constructor|].
  split; constructor; try done.
  - by eapply convert_unit_dom.
  - by eapply convert_unit_result_unit.
Qed.

(** X6: the conversion of a batch is all or nothing: when one point of
    the batch cannot be converted, [get_data_points] raises what that
    conversion raises, and the points converted before it are not returned. *)
Theorem get_data_points_all_or_nothing (selections : dict) target
    (pre : list dict) bad (rest : list dict) e :
  selections !! "unit_id" = Some target ->
  Client_get_data_points selections = Ok (pre ++ bad :: rest) ->
  Forall (fun p => ∃ p', convert_unit lookup_units p target = Ok p') pre ->
  convert_unit lookup_units bad target = Raise e ->
  get_data_points lookup_units Client_get_data_points selections = Raise e.
Proof.
  intros Hsel Hpts Hpre Hbad.
  assert (Hmap : mapR (fun point => convert point target) (pre ++ bad :: rest) = Raise e).
  { clear Hpts. induction Hpre as [|p pre [p' Hp] _ IH]; simpl.
    - by rewrite Hbad.
    - rewrite Hp. simpl. by rewrite IH. }
  unfold get_data_points, py_item. rewrite Hpts, Hsel.
  rewrite bool_decide_eq_true_2 by by eexists.
  exact Hmap.
Qed.

End GetDataPointsMore.

(** ** find_data_series *)

Lemma itertools_product_nil {A : Type} (pools : list (list A)) :
  [] ∈ pools -> itertools_product pools = [].
Proof.
  induction pools as [|pool pools IH]; intros Hin; [by apply elem_of_nil in Hin|].
  rewrite itertools_product_cons.
  apply elem_of_cons in Hin as [<- | Hin]; [done|].
  rewrite IH by done. by induction pool.
Qed.

Lemma length_in_itertools_product {A : Type} (pools : list (list A)) c :
  c ∈ itertools_product pools -> length c = length pools.
Proof.
  intros Hc. apply elem_of_itertools_product in Hc. by eapply Forall2_length.
Qed.

Lemma py_item_lookup (d : dict) k v : d !! k = Some v -> py_item d k = Ok v.
Proof. unfold py_item. by intros ->. Qed.

Lemma py_dict_foldl_notin (pairs : list (string * pyval)) (acc : dict) k :
  k ∉ pairs.*1 ->
  foldl (fun d kv => <[kv.1 := kv.2]> d) acc pairs !! k = acc !! k.
Proof.
  revert acc. induction pairs as [|[k0 v0] pairs IH]; intros acc Hk; [done|].
  simpl in *. apply not_elem_of_cons in Hk as [Hne Hk].
  rewrite IH by done. by rewrite lookup_insert_ne.
Qed.

Lemma py_dict_foldl_in (pairs : list (string * pyval)) (acc : dict) k v :
  NoDup pairs.*1 -> (k, v) ∈ pairs ->
  foldl (fun d kv => <[kv.1 := kv.2]> d) acc pairs !! k = Some v.
Proof.
  revert acc. induction pairs as [|[k0 v0] pairs IH]; intros acc Hnd Hin;
    [by apply elem_of_nil in Hin|].
  simpl in *. apply NoDup_cons in Hnd as [Hk0 Hnd].
  apply elem_of_cons in Hin as [[= -> ->] | Hin].
  - rewrite py_dict_foldl_notin by done. apply lookup_insert_eq.
  - by apply IH.
Qed.

Section FindDataSeriesMore.

Variable search : string -> pyval -> result (list dict).
Variable get_data_series : dict -> result (list dict).
Variable rank_series_by_source : list dict -> result (list dict).
Variable depth : nat.

Local Abbreviation searched := (searched search depth).
Local Abbreviation find := (find_data_series search get_data_series rank_series_by_source depth).

Lemma search_dimensions_each kwargs :
  search_dimensions search depth kwargs
  = search_each search depth kwargs DIMENSIONS ([], []).
Proof.
  unfold search_dimensions, DIMENSIONS. simpl.
  destruct (search_dimension _ _ _ "item" _ _ _) as [a1|]; simpl; [|done].
  destruct (search_dimension _ _ _ "metric" _ _ _) as [a2|]; simpl; [|done].
  destruct (search_dimension _ _ _ "region" _ _ _) as [a3|]; simpl; [|done].
  by destruct (search_dimension _ _ _ "partner_region" _ _ _).
Qed.

Lemma search_each_raise kwargs dims acc ds1 d ds2 pools1 e :
  filter (fun d => Is_true (py_truthy (py_get kwargs d.1.1))) dims = ds1 ++ d :: ds2 ->
  Forall2 (searched kwargs) ds1 pools1 ->
  search d.1.2 (py_get kwargs d.1.1) = Raise e ->
  search_each search depth kwargs dims acc = Raise e.
Proof.
  intros Hf Hs He. revert acc ds1 pools1 Hf Hs.
  induction dims as [|d0 dims IH]; intros acc ds1 pools1 Hf Hs.
  { rewrite filter_nil in Hf. by destruct ds1. }
  rewrite filter_cons in Hf. simpl. unfold search_dimension.
  destruct (py_truthy (py_get kwargs d0.1.1)) eqn:Ht.
  - rewrite decide_True in Hf by done.
    rewrite py_item_truthy by done. simpl.
    destruct Hs as [|d1 pool ds1 pools1 (found & Hfound & ->) Hs].
    + simpl in Hf. injection Hf as -> Hf. by rewrite He.
    + simpl in Hf. injection Hf as -> Hf. rewrite Hfound. simpl.
      by eapply IH.
  - rewrite decide_False in Hf by (by intros []). simpl. by eapply IH.
Qed.

(** X7: a search that fails is not absorbed either: the first supplied
    dimension, in the order item, metric, region, partner_region, whose
    search raises ends [find_data_series] with that exception, before any
    series is looked up and whatever the later searches would return. *)
Theorem find_data_series_search_failure kwargs ds1 d ds2 pools1 e :
  supplied kwargs = ds1 ++ d :: ds2 ->
  Forall2 (searched kwargs) ds1 pools1 ->
  search d.1.2 (py_get kwargs d.1.1) = Raise e ->
  find kwargs = Raise e.
Proof.
  intros Hsup Hs He. unfold find_data_series.
  rewrite search_dimensions_each.
  by rewrite (search_each_raise kwargs DIMENSIONS _ ds1 d ds2 pools1 e Hsup Hs He).
Qed.

(** X8: when the search of one supplied dimension finds nothing, there is
    no combination at all: no series is looked up, whatever the other
    dimensions found, and the ranking is handed the empty list. *)
Theorem find_data_series_empty_pool kwargs pools :
  Forall2 (searched kwargs) (supplied kwargs) pools ->
  [] ∈ pools ->
  combinations search depth kwargs = Ok []
  ∧ find kwargs = rank_series_by_source [].
Proof.
  intros Hs Hnil. unfold combinations, find_data_series.
  rewrite (search_dimensions_supplied _ _ _ _ Hs). simpl.
  by rewrite itertools_product_nil.
Qed.

Lemma supplied_keys_NoDup kwargs : NoDup (supplied kwargs).*2.
Proof.
  unfold supplied.
  eapply sublist_NoDup; [|apply fmap_sublist, sublist_filter].
  apply (bool_decide_unpack _). by vm_compute.
Qed.

(** X9: the lookup of a combination is constrained by the id keys of the
    supplied dimensions and by nothing else, each key bound to the id of the
    entity the combination has for that dimension. *)
Theorem sweep_entities kwargs pools (comb : list dict) :
  Forall2 (searched kwargs) (supplied kwargs) pools ->
  comb ∈ itertools_product pools ->
  Forall (fun entity : dict => is_Some (entity !! "id")) comb ->
  ∃ entities : dict,
    entities_of (supplied kwargs).*2 comb = Ok entities
    ∧ dom entities = list_to_set (supplied kwargs).*2
    ∧ ∀ i d entity, supplied kwargs !! i = Some d -> comb !! i = Some entity ->
        entities !! d.2 = entity !! "id".
Proof.
  intros Hs Hc Hids.
  assert (Hlen : length comb = length (supplied kwargs).*2).
  { rewrite (length_in_itertools_product _ _ Hc), length_fmap.
    symmetry. by eapply Forall2_length. }
  pose proof (supplied_keys_NoDup kwargs) as Hnd.
  revert Hlen Hnd. generalize (supplied kwargs). intros dims Hlen Hnd.
  unfold entities_of.
  assert (Hmap : ∃ ids, mapR (fun entity : dict => py_item entity "id") comb = Ok ids
            ∧ Forall2 (fun (entity : dict) v => entity !! "id" = Some v) comb ids).
  { clear -Hids. induction Hids as [|e comb [v Hv] _ (ids & Hm & HF)].
    - exists []. by split; [|constructor].
    - exists (v :: ids). cbn [mapR]. rewrite (py_item_lookup e "id" v Hv), Hm.
      split; [done|]. by constructor. }
  destruct Hmap as (ids & -> & HF). simpl. eexists. split; [done|].
  assert (Hlen' : length dims.*2 = length ids)
    by (rewrite <- Hlen; by eapply Forall2_length).
  assert (Hfst : (zip dims.*2 ids).*1 = dims.*2) by by apply fst_zip; lia.
  split.
  - apply set_eq. intros k. rewrite elem_of_dom, elem_of_list_to_set.
    unfold py_dict.
    assert (k ∈ dims.*2 ↔ k ∈ (zip dims.*2 ids).*1) as -> by by rewrite Hfst.
    destruct (decide (k ∈ (zip dims.*2 ids).*1)) as [Hin | Hnin].
    + split; [done|]. intros _.
      apply list_elem_of_fmap in Hin as ([k1 v1] & -> & Hin).
      exists v1. apply py_dict_foldl_in; [by rewrite Hfst|done].
    + rewrite py_dict_foldl_notin, lookup_empty by done.
      split; [by intros [? [=]]|done].
  - intros i d entity Hd He.
    destruct (Forall2_lookup_l _ _ _ _ _ HF He) as (v & Hv & Hid).
    rewrite Hid. unfold py_dict.
    apply py_dict_foldl_in; [by rewrite Hfst|].
    apply (list_elem_of_lookup_2 _ i).
    apply lookup_zip_with_Some. exists d.2, v.
    split; [done|]. split; [|done]. by rewrite list_lookup_fmap, Hd.
Qed.

Lemma stamp_dates_stamped kwargs data_series :
  dates_stamped kwargs (stamp_dates kwargs data_series).
Proof.
  unfold dates_stamped, stamp_dates. split.
  - intros ->. destruct (py_truthy (py_get kwargs "end_date")).
    + rewrite lookup_insert_ne by done. apply lookup_insert_eq.
    + apply lookup_insert_eq.
  - intros ->. apply lookup_insert_eq.
Qed.

Lemma sweep_stamped kwargs keys all combs out :
  Forall (dates_stamped kwargs) all ->
  sweep get_data_series kwargs keys all combs = Ok out ->
  Forall (dates_stamped kwargs) out.
Proof.
  revert all. induction combs as [|comb combs IH]; intros all Hall; simpl.
  - by intros [= <-].
  - unfold sweep_step.
    destruct (entities_of keys comb) as [entities|]; simpl; [|done].
    destruct (get_data_series entities) as [dsl|]; simpl; [|done].
    apply IH. apply Forall_app. split; [done|].
    rewrite Forall_fmap. apply Forall_forall. intros s _.
    apply stamp_dates_stamped.
Qed.

(** X10: a time range given with the request is on every series handed to
    the ranking: each carries the [start_date] of the request when there is
    one, and its [end_date] likewise, whatever dates the lookup returned. *)
Theorem find_data_series_stamps kwargs out :
  find kwargs = Ok out ->
  ∃ all_data_series,
    rank_series_by_source all_data_series = Ok out
    ∧ Forall (dates_stamped kwargs) all_data_series.
Proof.
  unfold find_data_series.
  destruct (search_dimensions search depth kwargs) as [acc|]; simpl; [|done].
  destruct (sweep _ _ _ _ _) as [all|] eqn:Hsweep; simpl; [|done].
  intros Hrank. exists all. split; [done|].
  eapply sweep_stamped; [|exact Hsweep]. constructor.
Qed.

End FindDataSeriesMore.

Section FalsyKeywords.

Variable search : string -> pyval -> result (list dict).
Variable get_data_series : dict -> result (list dict).
Variable rank_series_by_source : list dict -> result (list dict).
Variable depth : nat.

Lemma py_get_delete_falsy (kwargs : dict) k kw :
  py_truthy (py_get kwargs k) = false ->
  py_truthy (py_get (delete k kwargs) kw) = py_truthy (py_get kwargs kw)
  ∧ (py_truthy (py_get kwargs kw) = true ->
       py_get (delete k kwargs) kw = py_get kwargs kw
       ∧ py_item (delete k kwargs) kw = py_item kwargs kw).
Proof.
  intros Hf. unfold py_get, py_item. destruct (decide (k = kw)) as [<- | Hne].
  - rewrite lookup_delete_eq. simpl. split; [done|].
    unfold py_get in Hf. rewrite Hf. done.
  - by rewrite lookup_delete_ne.
Qed.

Lemma search_dimension_delete (kwargs : dict) k kw entity_type key acc :
  py_truthy (py_get kwargs k) = false ->
  search_dimension search depth (delete k kwargs) kw entity_type key acc
  = search_dimension search depth kwargs kw entity_type key acc.
Proof.
  intros Hf. unfold search_dimension.
  destruct (py_get_delete_falsy kwargs k kw Hf) as [-> Heq].
  destruct (py_truthy (py_get kwargs kw)); [|done].
  destruct (Heq eq_refl) as [_ ->]. done.
Qed.

Lemma stamp_dates_delete (kwargs : dict) k data_series :
  py_truthy (py_get kwargs k) = false ->
  stamp_dates (delete k kwargs) data_series = stamp_dates kwargs data_series.
Proof.
  intros Hf. unfold stamp_dates.
  destruct (py_get_delete_falsy kwargs k "start_date" Hf) as [-> Hs].
  destruct (py_get_delete_falsy kwargs k "end_date" Hf) as [-> He].
  destruct (py_truthy (py_get kwargs "start_date"));
    destruct (py_truthy (py_get kwargs "end_date"));
    rewrite ?(proj1 (Hs eq_refl)), ?(proj1 (He eq_refl)); done.
Qed.

Lemma sweep_delete (kwargs : dict) k keys all combs :
  py_truthy (py_get kwargs k) = false ->
  sweep get_data_series (delete k kwargs) keys all combs
  = sweep get_data_series kwargs keys all combs.
Proof.
  intros Hf. revert all. induction combs as [|comb combs IH]; intros all; [done|].
  simpl. unfold sweep_step.
  destruct (entities_of keys comb) as [entities|]; simpl; [|done].
  destruct (get_data_series entities) as [dsl|]; simpl; [|done].
  rewrite IH. do 2 f_equal.
  apply list_fmap_ext. intros i s _. by apply stamp_dates_delete.
Qed.

(** X11: a keyword whose value is falsy (the empty string, [None]) counts
    as not given: the call yields what it yields without that keyword.  This
    holds for the four name keywords and for the two dates alike. *)
Theorem find_data_series_ignores_falsy (kwargs : dict) k :
  py_truthy (py_get kwargs k) = false ->
  find_data_series search get_data_series rank_series_by_source depth (delete k kwargs)
  = find_data_series search get_data_series rank_series_by_source depth kwargs.
Proof.
  intros Hf. unfold find_data_series, search_dimensions.
  rewrite !search_dimension_delete by done.
  destruct (search_dimension _ _ _ "item" _ _ _) as [a1|]; simpl; [|done].
  rewrite !search_dimension_delete by done.
  destruct (search_dimension _ _ _ "metric" _ _ _) as [a2|]; simpl; [|done].
  rewrite !search_dimension_delete by done.
  destruct (search_dimension _ _ _ "region" _ _ _) as [a3|]; simpl; [|done].
  rewrite !search_dimension_delete by done.
  destruct (search_dimension _ _ _ "partner_region" _ _ _) as [a4|]; simpl; [|done].
  by rewrite sweep_delete.
Qed.

End FalsyKeywords.

(** ** The state of the client *)

Section ClientState.

Variable search : string -> pyval -> result (list dict).
Variable get_data_series : dict -> result (list dict).
Variable rank_series_by_source : list dict -> result (list dict).
Variable lookup_units : pyval -> result unit_attrs.
Variable Client_get_data_points : dict -> result (list dict).
Variable to_datetime : pyval -> result pyval.
Variable depth : nat.

Local Abbreviation loop := (get_df_loop lookup_units Client_get_data_points to_datetime).
Local Abbreviation drain := (get_df lookup_units Client_get_data_points to_datetime).

(** What the loop of [get_df] leaves behind, read off its own result. *)
Lemma get_df_loop_effects show (pending : list dict) st r st' :
  loop show pending st = (r, st') ->
  data_series_list st' = data_series_list st
  ∧ ((∃ df, r = Ok df ∧ df = data_frame st'
              ∧ (pending = [] ∧ st' = st ∨ pending ≠ [] ∧ data_series_queue st' = []))
     ∨ (∃ e pending1 pending2, r = Raise e
              ∧ pending = pending1 ++ pending2 ∧ pending1 ≠ []
              ∧ data_series_queue st' = reverse pending2)).
Proof.
  revert st. induction pending as [|ds pending IH]; intros st; simpl.
  - intros [= <- <-]. split; [done|]. left. eexists. by eauto.
  - destruct (get_data_points _ _ _) as [pts|e].
    2:{ intros [= <- <-]. split; [done|]. right. by exists e, [ds], pending. }
    destruct (add_points_to_df _ _ _ _) as [df|e].
    2:{ intros [= <- <-]. split; [done|]. right. by exists e, [ds], pending. }
    intros Hloop. apply IH in Hloop as [Hlist Hrest]. simpl in *.
    split; [done|].
    destruct Hrest as [(df' & -> & -> & Hq) | (e & p1 & p2 & -> & -> & Hp1 & Hq)].
    + left. eexists. split; [done|]. split; [done|]. right. split; [done|].
      destruct Hq as [[-> ->] | [_ Hq]]; [done|done].
    + right. exists e, (ds :: p1), p2. by repeat split.
Qed.


(** X13: once [get_df] has returned, calling it again fetches nothing: it
    returns the same table and leaves the client as it is, whatever the
    remote calls would now answer and whatever [show_revisions] says. *)
Theorem get_df_again show st df st'
    (lookup_units' : pyval -> result unit_attrs)
    (Client_get_data_points' : dict -> result (list dict))
    (to_datetime' : pyval -> result pyval) show' :
  drain show st = (Ok df, st') ->
  get_df lookup_units' Client_get_data_points' to_datetime' show' st' = (Ok df, st').
Proof.
  unfold get_df. intros Hloop.
  apply get_df_loop_effects in Hloop
    as [_ [(df' & [= <-] & -> & Hq) | (e & p1 & p2 & [=] & _)]].
  destruct Hq as [[Hnil ->] | [_ ->]].
  - by rewrite Hnil.
  - done.
Qed.

(** X14: the queue only ever holds saved series: in every state a client
    can be in, the queue is a sublist of the saved list (same series, same
    order). *)
Theorem queue_sublist_of_saved st :
  reachable search get_data_series rank_series_by_source lookup_units
    Client_get_data_points to_datetime depth st ->
  data_series_queue st `sublist_of` data_series_list st.
Proof.
  induction 1 as [|st ds _ IH|st kwargs _ IH|st show _ IH].
  - done.
  - simpl. by apply sublist_app.
  - unfold add_data_series.
    destruct (find_data_series _ _ _ _ _) as [[|top rest]|]; simpl; try done.
    by apply sublist_app.
  - destruct (drain show st) as [r st'] eqn:Hdf. simpl.
    apply get_df_loop_effects in Hdf as [Hlist Hrest]. rewrite Hlist.
    destruct Hrest as [(df & _ & _ & [[_ ->] | [_ ->]]) | (e & p1 & p2 & _ & Hp & _ & ->)].
    + done.
    + apply sublist_nil_l.
    + etransitivity; [|exact IH].
      apply (f_equal reverse) in Hp.
      rewrite reverse_involutive, reverse_app in Hp. rewrite Hp.
      by apply sublist_inserts_r.
Qed.

End ClientState.

(** ** add_points_to_df, continued *)

Lemma merge_outer_keeps_left (T b M1 : DataFrame) :
  merge_outer T b = Ok M1 ->
  Forall (fun l => Exists (fun m => row_match (columns T) m l) (rows M1)) (rows T).
Proof.
  intros H. destruct (merge_outer_inv _ _ _ H) as (_ & _ & Hrows).
  rewrite Forall_forall. intros l Hl. apply Exists_exists.
  destruct (filter (row_match (columns T ∩ columns b) l) (rows b)) as [|r rs] eqn:Hf.
  - eexists. split.
    + apply Hrows. right. left. exists l. by split.
    + intros c Hc. rewrite py_get_mk_row by (apply elem_of_union; by left).
      by rewrite bool_decide_eq_true_2.
  - assert (Hr : r ∈ filter (row_match (columns T ∩ columns b) l) (rows b))
      by (rewrite Hf; left).
    apply list_elem_of_filter in Hr as [Hlr Hr].
    eexists. split.
    + apply Hrows. left. exists l, r. by split.
    + intros c Hc. rewrite py_get_mk_row by (apply elem_of_union; by left).
      by rewrite bool_decide_eq_true_2.
Qed.

Section AddPointsMore.

Variable to_datetime : pyval -> result pyval.

Local Abbreviation add_points := (add_points_to_df to_datetime).

Lemma DataFrame_of_empty (data_points : list dict) :
  df_empty (DataFrame_of data_points) = true ↔ Forall (fun p : dict => p = ∅) data_points.
Proof.
  unfold df_empty, DataFrame_of. simpl. split.
  - intros [Hc | Hr]%orb_true_iff.
    + apply bool_decide_eq_true in Hc. apply Forall_forall. intros p Hp.
      apply dom_empty_iff_L. apply set_eq. intros k. split; [|set_solver].
      intros Hk. rewrite <- Hc. apply elem_of_union_list.
      exists (dom p). split; [|done]. apply list_elem_of_fmap. by exists p.
    + apply bool_decide_eq_true in Hr. apply fmap_nil_inv in Hr. by subst.
  - intros Hall. apply orb_true_iff. left. apply bool_decide_eq_true.
    apply set_eq. intros k. split; [|set_solver].
    intros (X & HX & Hk)%elem_of_union_list.
    apply list_elem_of_fmap in HX as (p & -> & Hp).
    rewrite Forall_forall in Hall. rewrite (Hall p Hp) in Hk.
    by rewrite dom_empty_L in Hk.
Qed.

(** X15: a batch without a cell (no point, or only empty points) is
    dropped before the series is read: the table stays as it is, even for a
    series that has no [source_id].  With a cell in the batch, a series
    without [source_id] raises [KeyError] instead. *)
Theorem add_points_to_df_reads_source_id data_frame (data_series : dict)
    (data_points : list dict) :
  (Forall (fun p : dict => p = ∅) data_points ->
     add_points_to_df to_datetime data_frame data_series data_points = Ok data_frame)
  ∧ (¬ Forall (fun p : dict => p = ∅) data_points ->
     data_series !! "source_id" = None ->
     add_points_to_df to_datetime data_frame data_series data_points
     = Raise (KeyError "source_id")).
Proof.
  unfold add_points_to_df, batch_frame. split.
  - intros Hall. apply DataFrame_of_empty in Hall. by rewrite Hall.
  - intros Hsome Hsid.
    destruct (df_empty (DataFrame_of data_points)) eqn:He.
    { by apply DataFrame_of_empty in He. }
    unfold py_item. by rewrite Hsid.
Qed.

Lemma parse_dates_rows c tmp tmp' :
  parse_dates to_datetime c tmp = Ok tmp' ->
  Forall2 (fun r r' : dict => ∀ k, k ≠ c -> r' !! k = r !! k) (rows tmp) (rows tmp').
Proof.
  unfold parse_dates. case_bool_decide as Hc.
  - destruct (mapR _ (rows tmp)) as [rows'|] eqn:Hmap; simpl; [|done].
    intros [= <-]. simpl. apply mapR_Ok in Hmap.
    eapply Forall2_impl; [exact Hmap|]. intros r r' Hr k Hk. simpl in Hr.
    destruct (to_datetime (py_get r c)); simpl in Hr; [|done].
    injection Hr as <-. by rewrite lookup_insert_ne.
  - intros [= <-]. apply Forall_Forall2_diag, Forall_forall. done.
Qed.

(** The rows of the batch frame, one per point, carry the [source_id] of the
    series. *)
Lemma batch_frame_source_id (data_series : dict) data_points tmp :
  batch_frame to_datetime data_series data_points = Ok (Some tmp) ->
  length (rows tmp) = length data_points
  ∧ Forall (fun r : dict => r !! "source_id" = data_series !! "source_id") (rows tmp).
Proof.
  unfold batch_frame.
  destruct (df_empty (DataFrame_of data_points)); [done|].
  unfold py_item.
  destruct (data_series !! "source_id") as [sid|]; simpl; [|done].
  destruct (parse_dates _ "end_date" _) as [t1|] eqn:H1; simpl; [|done].
  destruct (parse_dates _ "start_date" _) as [t2|] eqn:H2; simpl; [|done].
  destruct (parse_dates _ "reporting_date" _) as [t3|] eqn:H3; simpl; [|done].
  intros [= <-].
  apply parse_dates_rows in H1, H2, H3.
  split.
  - rewrite <- (Forall2_length _ _ _ H3), <- (Forall2_length _ _ _ H2),
      <- (Forall2_length _ _ _ H1).
    simpl. by rewrite !length_fmap.
  - assert (H0 : Forall (fun r : dict => r !! "source_id" = Some sid)
                   (rows (set_column "source_id" sid (DataFrame_of data_points)))).
    { simpl. rewrite Forall_fmap. apply Forall_forall. intros r _. simpl.
      apply lookup_insert_eq. }
    assert (Hstep : ∀ (c : string) (rs rs' : list dict), c ≠ "source_id"%string ->
              Forall2 (fun r r' : dict => ∀ k, k ≠ c -> r' !! k = r !! k) rs rs' ->
              Forall (fun r : dict => r !! "source_id" = Some sid) rs ->
              Forall (fun r : dict => r !! "source_id" = Some sid) rs').
    { intros c rs rs' Hc HF. induction HF as [|r r' rs rs' Hr _ IH]; [done|].
      intros [Hh Ht]%Forall_cons. constructor; [|by apply IH].
      rewrite Hr; done. }
    eapply (Hstep "reporting_date"%string); [done|exact H3|].
    eapply (Hstep "start_date"%string); [done|exact H2|].
    eapply (Hstep "end_date"%string); [done|exact H1|]. exact H0.
Qed.

(** X16: the first batch becomes the table: folded into an empty table,
    a batch gives a table with one row per point, and every row carries the
    [source_id] of the series, also where the points had one of their own. *)
Theorem add_points_to_df_first_fold data_frame (data_series : dict)
    (data_points : list dict) df1 :
  df_empty data_frame = true ->
  ¬ Forall (fun p : dict => p = ∅) data_points ->
  add_points data_frame data_series data_points = Ok df1 ->
  length (rows df1) = length data_points
  ∧ "source_id"%string ∈ columns df1
  ∧ ∃ sid, data_series !! "source_id" = Some sid
           ∧ Forall (fun r : dict => r !! "source_id" = Some sid) (rows df1).
Proof.
  intros Hempty Hsome. unfold add_points_to_df.
  destruct (batch_frame to_datetime data_series data_points) as [[tmp|]|] eqn:Hb;
    simpl; [| |done].
  - unfold fold_batch. rewrite Hempty. intros [= <-].
    destruct (batch_frame_source_id _ _ _ Hb) as [Hlen Hsid].
    destruct (batch_frame_Some _ _ _ _ Hb) as (Hwf & _ & Hrows).
    split; [done|].
    destruct (rows tmp) as [|r rs] eqn:Hr; [done|].
    assert (Hr0 : r !! "source_id" = data_series !! "source_id")
      by (by apply Forall_cons in Hsid as [? _]).
    assert (Hdom : dom r = columns tmp).
    { unfold wf_frame in Hwf. rewrite Hr in Hwf. by apply Forall_cons in Hwf as [? _]. }
    destruct (data_series !! "source_id") as [sid|] eqn:Hds.
    + split; [|by exists sid].
      rewrite <- Hdom. apply elem_of_dom. by eexists.
    + exfalso. revert Hb. unfold batch_frame.
      destruct (df_empty (DataFrame_of data_points)); [done|].
      unfold py_item. by rewrite Hds.
  - exfalso. revert Hb. unfold batch_frame.
    destruct (df_empty (DataFrame_of data_points)) eqn:He.
    + by apply DataFrame_of_empty in He.
    + destruct (py_item data_series "source_id"); simpl; [|done].
      destruct (parse_dates _ "end_date" _); simpl; [|done].
      destruct (parse_dates _ "start_date" _); simpl; [|done].
      by destruct (parse_dates _ "reporting_date" _).
Qed.

(** X17: a fold never drops what was accumulated: after a batch is
    folded into a table that is not empty, each row of the old table agrees,
    on all the columns of the old table, with a row of the new one, and the
    columns of the old table are columns of the new one. *)
Theorem add_points_to_df_keeps_rows data_frame (data_series : dict)
    (data_points : list dict) df1 :
  df_empty data_frame = false ->
  add_points data_frame data_series data_points = Ok df1 ->
  columns data_frame ⊆ columns df1
  ∧ Forall (fun l => Exists (fun m => row_match (columns data_frame) m l) (rows df1))
      (rows data_frame).
Proof.
  intros Hne. unfold add_points_to_df.
  destruct (batch_frame to_datetime data_series data_points) as [[tmp|]|];
    simpl; [| |done].
  - unfold fold_batch. rewrite Hne. intros Hm.
    split; [|by eapply merge_outer_keeps_left].
    destruct (merge_outer_inv _ _ _ Hm) as (_ & -> & _).
    intros c Hc. apply elem_of_union. by left.
  - intros [= <-]. split; [done|].
    apply Forall_forall. intros l Hl. apply Exists_exists.
    exists l. split; [done|]. apply row_match_refl.
Qed.

End AddPointsMore.

(** ** pick_random_data_series *)

Lemma py_int_scaled (n : nat) (random : Qc) :
  (0 ≤ random)%Qc -> (random < 1)%Qc -> 0 < n ->
  (0 ≤ py_int (Qc_of_Z (Z.of_nat n) * random)%Qc < Z.of_nat n)%Z.
Proof.
  intros H0 H1 Hn.
  set (q := (Qc_of_Z (Z.of_nat n) * random)%Qc).
  assert (Hq : (this q == inject_Z (Z.of_nat n) * this random)%Q)
    by (unfold q; simpl; apply Qred_correct).
  assert (Hq0 : (0 <= this q)%Q).
  { rewrite Hq. apply Qmult_le_0_compat; [|exact H0].
    change 0%Q with (inject_Z 0). rewrite <- Zle_Qle. lia. }
  assert (Hqn : (this q < inject_Z (Z.of_nat n))%Q).
  { rewrite Hq. rewrite <- (Qmult_1_r (inject_Z (Z.of_nat n))) at 2.
    apply Qmult_lt_l; [|exact H1].
    change 0%Q with (inject_Z 0). rewrite <- Zlt_Qlt. lia. }
  unfold py_int. rewrite bool_decide_eq_true_2 by exact Hq0.
  split.
  - rewrite <- (Qfloor_Z 0). by apply Qfloor_resp_le.
  - rewrite Zlt_Qlt. eapply Qle_lt_trans; [apply Qfloor_le|exact Hqn].
Qed.

Section PickRandom.

Variable get_data_series : dict -> result (list dict).

(** X19: with a random number in [0, 1) the index drawn is in range: for
    a selection that has series, [pick_random_data_series] returns one of
    them and never fails on the index; for a selection that has none it
    raises "No data series available". *)
Theorem pick_random_data_series_in_range (random : Qc) (selected_entities : dict)
    (data_series_list : list dict) :
  (0 ≤ random)%Qc -> (random < 1)%Qc ->
  get_data_series selected_entities = Ok data_series_list ->
  (data_series_list = [] ->
     pick_random_data_series get_data_series random selected_entities
     = PickRaise (NoDataSeries selected_entities))
  ∧ (data_series_list ≠ [] ->
     ∃ s, pick_random_data_series get_data_series random selected_entities = Picked s
          ∧ s ∈ data_series_list).
Proof.
  intros H0 H1 Hl. unfold pick_random_data_series. rewrite Hl. split.
  - intros ->. done.
  - intros Hne. rewrite bool_decide_eq_false_2 by done.
    assert (Hn : 0 < length data_series_list) by (destruct data_series_list; [done|simpl; lia]).
    pose proof (py_int_scaled _ _ H0 H1 Hn) as [Hi0 Hi1].
    unfold py_index. rewrite bool_decide_eq_true_2 by done.
    destruct (lookup_lt_is_Some_2 data_series_list
                (Z.to_nat (py_int (Qc_of_Z (Z.of_nat (length data_series_list)) * random)%Qc)))
      as [s Hs]; [lia|].
    rewrite Hs. exists s. split; [done|]. by eapply list_elem_of_lookup_2.
Qed.

End PickRandom.

(** ** The further properties at the sample data *)

Section MoreSamples.

Local Open Scope Qc_scope.

Lemma convert_unit_idempotent_witness :
  convert_unit Examples.no_lookup
    {[ "value" := PNum (Qc_of_Z 100000); "unit_id" := PNum 2;
       "start_date" := PStr "2017-01-01T00:00:00.000Z" ]} (PNum 2)
  = Ok {[ "value" := PNum (Qc_of_Z 100000); "unit_id" := PNum 2;
          "start_date" := PStr "2017-01-01T00:00:00.000Z" ]}.
Proof.
  apply (convert_unit_idempotent Examples.units_table Examples.no_lookup
           Examples.point_100 _ (PNum 2) sample_conversion).
Defined.


Lemma convert_unit_blames_witness :
  convert_unit Examples.units_table Examples.point_unit3 (PNum (Qc_of_Z 99))
  = Raise (NotConvertible (PNum (Qc_of_Z 3)))
  ∧ convert_unit Examples.units_table Examples.point_100 (PNum (Qc_of_Z 3))
    = Raise (NotConvertible (PNum (Qc_of_Z 3))).
Proof.
  split.
  - apply (proj1 (convert_unit_blames Examples.units_table Examples.point_unit3
                    (PNum (Qc_of_Z 99)) (ConvFactor None None)
                    ltac:(done) ltac:(done) eq_refl)).
    by left.
  - apply (proj2 (convert_unit_blames Examples.units_table Examples.point_100
                    (PNum (Qc_of_Z 3)) (ConvFactor (Some (Qc_of_Z 1000)) (Some 0))
                    ltac:(done) ltac:(done) eq_refl)
             (Qc_of_Z 1000) (ConvFactor None None) eq_refl ltac:(done) eq_refl).
    by left.
Defined.

Lemma convert_unit_keeps_keys_witness :
  dom ({[ "value" := PNum (Qc_of_Z 100000); "unit_id" := PNum 2;
          "start_date" := PStr "2017-01-01T00:00:00.000Z" ]} : dict)
  = dom Examples.point_100.
Proof.
  apply (convert_unit_keeps_keys Examples.units_table Examples.point_100 _ (PNum 2)
           sample_conversion).
Defined.

Lemma sample_fetch_converts :
  ∃ pts', get_data_points Examples.units_table Examples.points_stub
            Examples.selections_unit2 = Ok pts' ∧ length pts' = 3%nat.
Proof. eexists. split; reflexivity. Qed.

Lemma get_data_points_in_target_unit_witness :
  ∃ pts' pts,
    get_data_points Examples.units_table Examples.points_stub Examples.selections_unit2
    = Ok pts'
    ∧ Examples.points_stub Examples.selections_unit2 = Ok pts
    ∧ length pts' = 3%nat
    ∧ length pts' = length pts
    ∧ Forall2 (fun p p' : dict => dom p' = dom p) pts pts'
    ∧ Forall (fun p' => py_get p' "unit_id" = PNone ∨ py_get p' "unit_id" = PNum 2) pts'.
Proof.
  destruct sample_fetch_converts as (pts' & H & Hlen).
  destruct (get_data_points_in_target_unit Examples.units_table Examples.points_stub
              Examples.selections_unit2 (PNum 2) pts' eq_refl H)
    as (pts & Hp & Hl & Hd & Hu).
  exists pts', pts. by repeat split.
Defined.

Lemma get_data_points_all_or_nothing_witness :
  get_data_points Examples.units_table Examples.mixed_points_stub
    Examples.selections_unit2
  = Raise (NotConvertible (PNum (Qc_of_Z 3))).
Proof.
  apply (get_data_points_all_or_nothing Examples.units_table Examples.mixed_points_stub
           Examples.selections_unit2 (PNum 2)
           [Examples.point_100] Examples.point_unit3 [Examples.point_null]
           (NotConvertible (PNum (Qc_of_Z 3))) eq_refl eq_refl).
  - constructor; [|constructor]. eexists. apply sample_conversion.
  - reflexivity.
Defined.

End MoreSamples.

Lemma find_data_series_search_failure_witness :
  find_data_series Examples.search_metrics_down Examples.steady_get_data_series
    Examples.rank_stub cfg.MAX_RESULT_COMBINATION_DEPTH Examples.kwargs_item_metric
  = Raise (External "metrics down").
Proof.
  apply (find_data_series_search_failure Examples.search_metrics_down
           Examples.steady_get_data_series Examples.rank_stub
           cfg.MAX_RESULT_COMBINATION_DEPTH Examples.kwargs_item_metric
           [("item", "items", "item_id")%string] ("metric", "metrics", "metric_id")%string []
           [[Examples.entity 274 "Corn"; Examples.entity 270 "Soybeans"]]
           (External "metrics down")).
  - reflexivity.
  - repeat constructor. eexists. split; reflexivity.
  - reflexivity.
Defined.

Lemma find_data_series_empty_pool_witness :
  combinations Examples.search_no_metric cfg.MAX_RESULT_COMBINATION_DEPTH
    Examples.kwargs_item_metric = Ok []
  ∧ find_data_series Examples.search_no_metric Examples.flaky_get_data_series
      Examples.rank_stub cfg.MAX_RESULT_COMBINATION_DEPTH Examples.kwargs_item_metric
    = Ok [].
Proof.
  apply (find_data_series_empty_pool Examples.search_no_metric
           Examples.flaky_get_data_series Examples.rank_stub
           cfg.MAX_RESULT_COMBINATION_DEPTH Examples.kwargs_item_metric
           [[Examples.entity 274 "Corn"; Examples.entity 270 "Soybeans"]; []]).
  - change (supplied Examples.kwargs_item_metric)
      with [("item", "items", "item_id"); ("metric", "metrics", "metric_id")]%string.
    repeat constructor; eexists; (split; reflexivity).
  - right. left.
Defined.

Lemma sweep_entities_witness :
  ∃ entities : dict,
    entities_of ["item_id"; "metric_id"]%string
      [Examples.entity 270 "Soybeans"; Examples.entity 11 "m11"] = Ok entities
    ∧ dom entities = {[ "item_id"; "metric_id" ]}%string
    ∧ entities !! "item_id" = Some (PNum (Qc_of_Z 270))
    ∧ entities !! "metric_id" = Some (PNum (Qc_of_Z 11)).
Proof.
  destruct (sweep_entities Examples.search_stub cfg.MAX_RESULT_COMBINATION_DEPTH
              Examples.kwargs_item_metric
              [[Examples.entity 274 "Corn"; Examples.entity 270 "Soybeans"];
               [Examples.entity 10 "m10"; Examples.entity 11 "m11";
                Examples.entity 12 "m12"]]
              [Examples.entity 270 "Soybeans"; Examples.entity 11 "m11"])
    as (entities & He & Hdom & Hget).
  - change (supplied Examples.kwargs_item_metric)
      with [("item", "items", "item_id"); ("metric", "metrics", "metric_id")]%string.
    repeat constructor; eexists; (split; reflexivity).
  - apply elem_of_itertools_product. repeat constructor.
  - repeat constructor; by eexists.
  - exists entities. split; [exact He|]. split.
    + rewrite Hdom. apply (bool_decide_unpack _). by vm_compute.
    + split.
      * apply (Hget 0 ("item", "items", "item_id")%string
                 (Examples.entity 270 "Soybeans") eq_refl eq_refl).
      * apply (Hget 1 ("metric", "metrics", "metric_id")%string
                 (Examples.entity 11 "m11") eq_refl eq_refl).
Defined.

Lemma sample_find_dated :
  ∃ out, find_data_series Examples.search_stub Examples.steady_get_data_series
           Examples.rank_stub cfg.MAX_RESULT_COMBINATION_DEPTH
           Examples.kwargs_dated = Ok out ∧ length out = 2.
Proof. eexists. split; reflexivity. Qed.

Lemma find_data_series_stamps_witness :
  ∃ out all_data_series,
    find_data_series Examples.search_stub Examples.steady_get_data_series
      Examples.rank_stub cfg.MAX_RESULT_COMBINATION_DEPTH Examples.kwargs_dated = Ok out
    ∧ length out = 2
    ∧ Examples.rank_stub all_data_series = Ok out
    ∧ Forall (dates_stamped Examples.kwargs_dated) all_data_series.
Proof.
  destruct sample_find_dated as (out & H & Hlen).
  destruct (find_data_series_stamps Examples.search_stub Examples.steady_get_data_series
              Examples.rank_stub cfg.MAX_RESULT_COMBINATION_DEPTH Examples.kwargs_dated
              out H) as (all & Hr & Hall).
  exists out, all. by repeat split.
Defined.

Lemma find_data_series_ignores_falsy_witness :
  find_data_series Examples.search_metrics_down Examples.steady_get_data_series
    Examples.rank_stub cfg.MAX_RESULT_COMBINATION_DEPTH
    (delete "metric" Examples.kwargs_blank_metric)
  = find_data_series Examples.search_metrics_down Examples.steady_get_data_series
      Examples.rank_stub cfg.MAX_RESULT_COMBINATION_DEPTH Examples.kwargs_blank_metric.
Proof.
  apply (find_data_series_ignores_falsy Examples.search_metrics_down
           Examples.steady_get_data_series Examples.rank_stub
           cfg.MAX_RESULT_COMBINATION_DEPTH Examples.kwargs_blank_metric "metric").
  reflexivity.
Defined.



Lemma sample_drain_succeeds :
  ∃ df st',
    get_df Examples.units_table Examples.steady_get_data_points Examples.to_datetime_stub
      false Examples.three_series = (Ok df, st').
Proof. eexists _, _. vm_compute. reflexivity. Qed.

Lemma get_df_again_witness :
  ∃ df st',
    get_df Examples.units_table Examples.steady_get_data_points Examples.to_datetime_stub
      false Examples.three_series = (Ok df, st')
    ∧ get_df Examples.no_lookup Examples.flaky_get_data_points Examples.to_datetime_stub
        true st' = (Ok df, st').
Proof.
  destruct sample_drain_succeeds as (df & st' & H).
  exists df, st'. split; [exact H|].
  apply (get_df_again Examples.units_table Examples.steady_get_data_points
           Examples.to_datetime_stub false Examples.three_series df st'
           Examples.no_lookup Examples.flaky_get_data_points Examples.to_datetime_stub
           true H).
Defined.

Lemma queue_sublist_of_saved_witness :
  data_series_queue
    (get_df Examples.units_table Examples.flaky_get_data_points
       Examples.to_datetime_stub false
       (add_data_series Examples.search_stub Examples.steady_get_data_series
          Examples.rank_stub cfg.MAX_RESULT_COMBINATION_DEPTH
          Examples.three_series Examples.kwargs_item).2).2
  `sublist_of`
  data_series_list
    (get_df Examples.units_table Examples.flaky_get_data_points
       Examples.to_datetime_stub false
       (add_data_series Examples.search_stub Examples.steady_get_data_series
          Examples.rank_stub cfg.MAX_RESULT_COMBINATION_DEPTH
          Examples.three_series Examples.kwargs_item).2).2.
Proof.
  apply (queue_sublist_of_saved Examples.search_stub Examples.steady_get_data_series
           Examples.rank_stub Examples.units_table Examples.flaky_get_data_points
           Examples.to_datetime_stub cfg.MAX_RESULT_COMBINATION_DEPTH).
  apply reachable_get_df, reachable_add.
  unfold Examples.three_series.
  repeat apply reachable_add_single. apply reachable_init.
Defined.

Lemma add_points_to_df_reads_source_id_witness :
  add_points_to_df Examples.to_datetime_stub Examples.table_before ∅ [∅; ∅]
  = Ok Examples.table_before
  ∧ add_points_to_df Examples.to_datetime_stub Examples.table_before ∅
      [Examples.obs "2017-01-01" 5]
    = Raise (KeyError "source_id").
Proof.
  split.
  - apply (proj1 (add_points_to_df_reads_source_id Examples.to_datetime_stub
                    Examples.table_before ∅ [∅; ∅])).
    by repeat constructor.
  - apply (proj2 (add_points_to_df_reads_source_id Examples.to_datetime_stub
                    Examples.table_before ∅ [Examples.obs "2017-01-01" 5])).
    + intros [H _]%Forall_cons. apply (f_equal (fun m : dict => m !! "value")) in H.
      discriminate H.
    + reflexivity.
Defined.

Lemma sample_first_fold :
  ∃ df1,
    add_points_to_df Examples.to_datetime_stub DataFrame_empty (Examples.series 270 2)
      [ <["source_id" := PNum (Qc_of_Z 7)]> (Examples.obs "2017-01-01" 5);
        Examples.obs "2018-01-01" 7 ] = Ok df1.
Proof. eexists. reflexivity. Qed.

Lemma add_points_to_df_first_fold_witness :
  ∃ df1,
    add_points_to_df Examples.to_datetime_stub DataFrame_empty (Examples.series 270 2)
      [ <["source_id" := PNum (Qc_of_Z 7)]> (Examples.obs "2017-01-01" 5);
        Examples.obs "2018-01-01" 7 ] = Ok df1
    ∧ length (rows df1) = 2
    ∧ Forall (fun r : dict => r !! "source_id" = Some (PNum (Qc_of_Z 2))) (rows df1).
Proof.
  destruct sample_first_fold as (df1 & H).
  destruct (add_points_to_df_first_fold Examples.to_datetime_stub DataFrame_empty
              (Examples.series 270 2)
              [ <["source_id" := PNum (Qc_of_Z 7)]> (Examples.obs "2017-01-01" 5);
                Examples.obs "2018-01-01" 7 ] df1 eq_refl)
    as (Hlen & _ & sid & Hsid & Hall).
  - intros [_ [Hp _]%Forall_cons]%Forall_cons.
    apply (f_equal (fun m : dict => m !! "value")) in Hp. discriminate Hp.
  - exact H.
  - exists df1. split; [exact H|]. split; [exact Hlen|].
    injection Hsid as <-. exact Hall.
Defined.

Lemma sample_second_series :
  ∃ df1,
    add_points_to_df Examples.to_datetime_stub Examples.table_before
      (Examples.series 270 2)
      [Examples.obs "2017-01-01" 5; Examples.obs "2018-01-01" 7] = Ok df1.
Proof. eexists. reflexivity. Qed.

Lemma add_points_to_df_keeps_rows_witness :
  ∃ df1,
    add_points_to_df Examples.to_datetime_stub Examples.table_before
      (Examples.series 270 2)
      [Examples.obs "2017-01-01" 5; Examples.obs "2018-01-01" 7] = Ok df1
    ∧ columns Examples.table_before ⊆ columns df1
    ∧ Forall (fun l => Exists (fun m => row_match (columns Examples.table_before) m l)
                         (rows df1))
        (rows Examples.table_before).
Proof.
  destruct sample_second_series as (df1 & H).
  exists df1. split; [exact H|].
  apply (add_points_to_df_keeps_rows Examples.to_datetime_stub Examples.table_before
           (Examples.series 270 2) _ df1 eq_refl H).
Defined.

Lemma pick_random_data_series_in_range_witness :
  (∃ s, pick_random_data_series Examples.steady_get_data_series
          (Qc_of_Z 999 / Qc_of_Z 1000)%Qc Examples.kwargs_item = Picked s
        ∧ s ∈ [Examples.series 270 2])
  ∧ pick_random_data_series (fun _ => Ok []) (Qc_of_Z 999 / Qc_of_Z 1000)%Qc
      Examples.kwargs_item
    = PickRaise (NoDataSeries Examples.kwargs_item).
Proof.
  split.
  - apply (proj2 (pick_random_data_series_in_range Examples.steady_get_data_series
                    (Qc_of_Z 999 / Qc_of_Z 1000)%Qc Examples.kwargs_item
                    [Examples.series 270 2] ltac:(done) ltac:(done) eq_refl)).
    done.
  - apply (proj1 (pick_random_data_series_in_range (fun _ => Ok [])
                    (Qc_of_Z 999 / Qc_of_Z 1000)%Qc Examples.kwargs_item
                    [] ltac:(done) ltac:(done) eq_refl)).
    done.
Defined.

Section AddPointsBatch.

Variable to_datetime : pyval -> result pyval.

(** X18: a fold never drops an observation of the batch either: each
    row of the batch, as [add_points_to_df] prepares it, agrees on all its
    columns with a row of the table after the fold. *)
Theorem add_points_to_df_keeps_batch data_frame (data_series : dict)
    (data_points : list dict) tmp df1 :
  batch_frame to_datetime data_series data_points = Ok (Some tmp) ->
  add_points_to_df to_datetime data_frame data_series data_points = Ok df1 ->
  columns tmp ⊆ columns df1
  ∧ Forall (fun r => Exists (fun m => row_match (columns tmp) m r) (rows df1)) (rows tmp).
Proof.
  intros Hb. unfold add_points_to_df, fold_batch. rewrite Hb. simpl.
  destruct (df_empty data_frame).
  - intros [= <-]. split; [done|].
    apply Forall_forall. intros r Hr. apply Exists_exists.
    exists r. split; [done|]. apply row_match_refl.
  - intros Hm. split; [|by eapply merge_outer_covers].
    destruct (merge_outer_inv _ _ _ Hm) as (_ & -> & _).
    intros c Hc. apply elem_of_union. by right.
Qed.

End AddPointsBatch.

Lemma sample_batch_frame :
  ∃ tmp,
    batch_frame Examples.to_datetime_stub (Examples.series 270 2)
      [Examples.obs "2017-01-01" 5; Examples.obs "2018-01-01" 7] = Ok (Some tmp)
    ∧ length (rows tmp) = 2.
Proof. eexists. split; vm_compute; reflexivity. Qed.

Lemma add_points_to_df_keeps_batch_witness :
  ∃ tmp df1,
    batch_frame Examples.to_datetime_stub (Examples.series 270 2)
      [Examples.obs "2017-01-01" 5; Examples.obs "2018-01-01" 7] = Ok (Some tmp)
    ∧ length (rows tmp) = 2
    ∧ add_points_to_df Examples.to_datetime_stub Examples.table_before
        (Examples.series 270 2)
        [Examples.obs "2017-01-01" 5; Examples.obs "2018-01-01" 7] = Ok df1
    ∧ columns tmp ⊆ columns df1
    ∧ Forall (fun r => Exists (fun m => row_match (columns tmp) m r) (rows df1)) (rows tmp).
Proof.
  destruct sample_batch_frame as (tmp & Hb & Hlen).
  destruct sample_second_series as (df1 & H).
  exists tmp, df1. split; [exact Hb|]. split; [exact Hlen|]. split; [exact H|].
  apply (add_points_to_df_keeps_batch Examples.to_datetime_stub Examples.table_before
           (Examples.series 270 2) _ tmp df1 Hb H).
Defined.
